(** * api-gateway: a shallow embedding of the four request handlers

    The repository is a FastAPI application with three services
    ([weather_service.py], [time_service.py], [openai_service.py]) and the
    routes of [main.py].  Each handler is embedded as a computation in a
    small reader/state/exception monad: the reader part holds what lies
    outside the repository (the two upstream servers, the time-zone rules,
    the interpreter's string-to-float parser, the settings object), the
    state part holds the system clock and the log of library calls, and
    the exception part follows Python's [raise] and [try]/[except]. *)

From Stdlib Require Import ZArith Lia.
From Stdlib Require Import Floats.SpecFloat.
From stdpp Require Import base option list strings pretty gmap.

Set Warnings "-register-all".
#[local] Open Scope Z_scope.

(** * Python values *)

(** ** Floats: IEEE-754 binary64, as CPython's [float] *)

Definition float64 : Type := spec_float.

Definition prec64 : Z := 53.
Definition emax64 : Z := 1024.

(** Round-to-nearest-even conversion of an integer; the result is
    [S754_infinity] exactly when the integer is out of range. *)
Definition float_of_Z (z : Z) : float64 := binary_normalize prec64 emax64 z 0 false.

(** A decimal literal [m / 10^k] of the source text ([44.384] is
    [float_lit 44384 3]): the correctly rounded quotient of two exactly
    represented integers. *)
Definition float_lit (m : Z) (k : Z) : float64 :=
  SFdiv prec64 emax64 (float_of_Z m) (float_of_Z (10 ^ k)).

Definition is_finite (f : float64) : bool :=
  match f with
  | S754_zero _ | S754_finite _ _ _ => true
  | S754_infinity _ | S754_nan => false
  end.

(** The integer a float denotes, when it denotes one ([float.is_integer]
    followed by [int(f)]). *)
Definition float_to_Z (f : float64) : option Z :=
  match f with
  | S754_zero _ => Some 0
  | S754_finite s m (Zneg p) =>
      if decide ((Zpos m) `mod` 2 ^ Zpos p = 0)
      then Some (cond_Zopp s (Zpos m `div` 2 ^ Zpos p))
      else None
  | S754_finite s m e => Some (cond_Zopp s (Zpos m * 2 ^ e))
  | S754_infinity _ | S754_nan => None
  end.

(** ** Values produced by [json] decoding *)

Inductive pyval : Type :=
  | PyNone
  | PyBool (b : bool)
  | PyInt (z : Z)
  | PyFloat (f : float64)
  | PyStr (s : string)
  | PyList (l : list pyval)
  | PyDict (d : gmap string pyval).

Definition type_name (v : pyval) : string :=
  match v with
  | PyNone => "NoneType"
  | PyBool _ => "bool"
  | PyInt _ => "int"
  | PyFloat _ => "float"
  | PyStr _ => "str"
  | PyList _ => "list"
  | PyDict _ => "dict"
  end.

(** ** Exceptions *)

(** The exception classes that the handlers name or that the calls they
    make can raise, with their base classes as the defining libraries
    declare them (builtins, [json], [requests], [openai], [starlette]). *)
Inductive exc_class : Type :=
  | BaseException | Exception | KeyboardInterrupt | SystemExit | CancelledError
  | ArithmeticError | OverflowError
  | LookupError | KeyError | IndexError
  | TypeError | AttributeError | ValueError | OSError
  | JSONDecodeError
  | RequestException | ConnectionError | HTTPError | Timeout | ConnectTimeout
  | ReadTimeout | TooManyRedirects | InvalidJSONError | RequestsJSONDecodeError
  | OpenAIError | APIError | APIConnectionError | APITimeoutError
  | APIStatusError | AuthenticationError | RateLimitError | InternalServerError
  | HTTPExceptionClass.

#[global] Instance exc_class_eq_dec : EqDecision exc_class.
Proof. solve_decision. Defined.

Definition bases (c : exc_class) : list exc_class :=
  match c with
  | BaseException => []
  | Exception | KeyboardInterrupt | SystemExit | CancelledError => [BaseException]
  | ArithmeticError | LookupError | TypeError | AttributeError | ValueError
  | OSError | OpenAIError | HTTPExceptionClass => [Exception]
  | OverflowError => [ArithmeticError]
  | KeyError | IndexError => [LookupError]
  | JSONDecodeError => [ValueError]
  | RequestException => [OSError]
  | ConnectionError | HTTPError | Timeout | TooManyRedirects
  | InvalidJSONError => [RequestException]
  | ConnectTimeout => [ConnectionError; Timeout]
  | ReadTimeout => [Timeout]
  | RequestsJSONDecodeError => [InvalidJSONError; JSONDecodeError]
  | APIError => [OpenAIError]
  | APIConnectionError | APIStatusError => [APIError]
  | APITimeoutError => [APIConnectionError]
  | AuthenticationError | RateLimitError | InternalServerError => [APIStatusError]
  end.

(** [issubclass c d], by a search of the base classes; the hierarchy above
    is at most six levels deep. *)
Fixpoint issubclass_upto (fuel : nat) (c d : exc_class) : bool :=
  bool_decide (c = d) ||
  match fuel with
  | O => false
  | S fuel' => existsb (fun b => issubclass_upto fuel' b d) (bases c)
  end.

Definition issubclass (c d : exc_class) : bool := issubclass_upto 6 c d.

(** A raised exception: an instance of a class with its [str()], or
    FastAPI's [HTTPException(status_code, detail)]. *)
Inductive exception : Type :=
  | Exc (cls : exc_class) (msg : string)
  | HTTPException (status_code : Z) (detail : string).

Definition class_of (e : exception) : exc_class :=
  match e with
  | Exc cls _ => cls
  | HTTPException _ _ => HTTPExceptionClass
  end.

Definition str (e : exception) : string :=
  match e with
  | Exc _ msg => msg
  | HTTPException status_code detail => pretty status_code +:+ ": " +:+ detail
  end.

(** [isinstance(e, (c1, ..., cn))]. *)
Definition isinstance (e : exception) (cs : list exc_class) : bool :=
  existsb (issubclass (class_of e)) cs.

(** The outcome of evaluating a Python expression or call. *)
Inductive outcome (A : Type) : Type :=
  | Returned (a : A)
  | Raised (e : exception).
Arguments Returned {A} a.
Arguments Raised {A} e.

(** ** Builtin operations on values *)

(** [v.get(key, dflt)]: defined on dictionaries only. *)
Definition py_get (v : pyval) (key : string) (dflt : pyval) : outcome pyval :=
  match v with
  | PyDict d => Returned (default dflt (d !! key))
  | _ => Raised (Exc AttributeError
                   ("'" +:+ type_name v +:+ "' object has no attribute 'get'"))
  end.

(** [v[0]].  A decoded JSON object has string keys only, so the integer
    key [0] is never found in one. *)
Definition py_getitem0 (v : pyval) : outcome pyval :=
  match v with
  | PyList [] => Raised (Exc IndexError "list index out of range")
  | PyList (x :: _) => Returned x
  | PyStr EmptyString => Raised (Exc IndexError "string index out of range")
  | PyStr (String c _) => Returned (PyStr (String c EmptyString))
  | PyDict _ => Raised (Exc KeyError "0")
  | _ => Raised (Exc TypeError ("'" +:+ type_name v +:+ "' object is not subscriptable"))
  end.

(** [float(v)]; [parse] is the interpreter's reading of a string as a
    float, [None] where it raises [ValueError], and [repr] is its [repr]
    of a string, which the text of that error quotes. *)
Definition py_float (parse : string -> option float64) (repr : string -> string)
    (v : pyval) : outcome float64 :=
  match v with
  | PyFloat f => Returned f
  | PyInt z =>
      match float_of_Z z with
      | S754_infinity _ => Raised (Exc OverflowError "int too large to convert to float")
      | f => Returned f
      end
  | PyBool b => Returned (float_of_Z (if b then 1 else 0))
  | PyStr s =>
      match parse s with
      | Some f => Returned f
      | None => Raised (Exc ValueError ("could not convert string to float: " +:+ repr s))
      end
  | _ => Raised (Exc TypeError
                   ("float() argument must be a string or a real number, not '"
                    +:+ type_name v +:+ "'"))
  end.

(** * The settings object: [app/config.py] *)
Module config.

Record Settings : Type := {
  OPENAI_API_KEY : string;
  CUNEO_LAT : float64;
  CUNEO_LON : float64;
  ENVIRONMENT : string
}.

(** [decouple.config(option, default=dflt)]: the process environment
    first, then the repository file ([.env] or [settings.ini]) that
    decouple finds, then the default. *)
Definition decouple_config (environ repository : gmap string string)
    (option dflt : string) : string :=
  match environ !! option with
  | Some value => value
  | None => default dflt (repository !! option)
  end.

(** [Settings()]: the two strings are read through decouple, the two
    coordinates are the class defaults. *)
Definition Settings_new (environ repository : gmap string string) : Settings := {|
  OPENAI_API_KEY := decouple_config environ repository "OPENAI_API_KEY" "";
  CUNEO_LAT := float_lit 44384 3;
  CUNEO_LON := float_lit 7543 3;
  ENVIRONMENT := decouple_config environ repository "ENVIRONMENT" "development"
|}.

End config.

(** * The world around the handlers *)

(** ** Dates and times *)

(** Instants and wall-clock readings are counted in microseconds; an
    instant is counted from the epoch in UTC. *)

(** A [pytz] zone, as [pytz.timezone(name)] returns it. *)
Record timezone : Type := { tz_name : string }.

(** The [tzinfo] attached to an aware [datetime]: the zone and the UTC
    offset in force. *)
Record tzinfo : Type := { zone : string; utcoffset : Z }.

(** A [datetime]: its wall-clock fields and, when aware, its [tzinfo]. *)
Record datetime : Type := { wall : Z; tz : option tzinfo }.

(** The instant an aware [datetime] denotes. *)
Definition instant (dt : datetime) : option Z :=
  match tz dt with
  | Some i => Some (wall dt - utcoffset i)
  | None => None
  end.

(** ** Upstream servers *)

(** What [requests.get] hands back when it returns: the fields of the
    response that [raise_for_status] and [json] read. *)
Record Response : Type := {
  resp_status_code : Z;
  resp_reason : string;
  resp_url : string;
  resp_json : outcome pyval   (* the result of decoding the body *)
}.

(** One chat completion choice, reduced to [choice.message.content]. *)
Record Choice : Type := { message_content : option string }.

(** The value [chat.completions.create] returns. *)
Record ChatCompletion : Type := { choices : list Choice }.

Record chat_message : Type := { role : string; content : string }.

(** The keyword arguments of [chat.completions.create]. *)
Record chat_create : Type := {
  model : string;
  messages : list chat_message;
  max_tokens : Z
}.

(** A call of one of the two client libraries, [requests.get] or
    [chat.completions.create], with its arguments.  What the library does
    beneath one call (the HTTP requests it sends, redirects it follows,
    retries of the [openai] client) is not part of the model. *)
Inductive outbound : Type :=
  | HttpGet (url : string) (params : list (string * pyval))
  | ChatCreate (api_key : string) (call : chat_create).

(** Everything the handlers depend on and do not define.  An upstream
    answers a call with the time the call took and its outcome. *)
Record Env : Type := {
  settings : config.Settings;          (* the module-level [settings] object *)
  weather_api : string -> list (string * pyval) -> Z * outcome Response;
  chat_api : string -> chat_create -> Z * outcome ChatCompletion;
  host_utcoffset : Z -> Z;                           (* the host's local zone *)
  tz_rules : string -> Z -> Z;                       (* the zone database *)
  float_of_str : string -> option float64;           (* [float] of a string *)
  repr_str : string -> string                        (* [repr] of a string *)
}.

Record State : Type := {
  clock : Z;                  (* the system clock, an instant *)
  sent : list outbound        (* library calls so far, oldest first *)
}.

(** ** The monad of handlers *)

Definition M (A : Type) : Type := Env -> State -> outcome A * State.

#[global] Instance M_ret : MRet M := fun A a _ st => (Returned a, st).

#[global] Instance M_bind : MBind M := fun A B k m env st =>
  match m env st with
  | (Returned a, st') => k a env st'
  | (Raised e, st') => (Raised e, st')
  end.

Definition raise {A} (e : exception) : M A := fun _ st => (Raised e, st).

Definition lift {A} (o : outcome A) : M A := fun _ st => (o, st).

Definition ask : M Env := fun env st => (Returned env, st).

(** [try: body / except cs1 as e: h1 e / except cs2 as e: h2 e ...]: the
    first clause whose classes match handles the exception; an exception
    raised inside a handler is not offered to the other clauses. *)
Fixpoint dispatch {A} (clauses : list (list exc_class * (exception -> M A)))
    (e : exception) : M A :=
  match clauses with
  | [] => raise e
  | (cs, h) :: rest => if isinstance e cs then h e else dispatch rest e
  end.

Definition try_except {A} (body : M A)
    (clauses : list (list exc_class * (exception -> M A))) : M A :=
  fun env st =>
    match body env st with
    | (Returned a, st') => (Returned a, st')
    | (Raised e, st') => dispatch clauses e env st'
    end.

(** ** Library calls *)

(** [datetime.now(tz)]: with no zone, the naive local time of the host;
    with a zone, the aware time in that zone. *)
Definition datetime_now (z : option timezone) : M datetime := fun env st =>
  let t := clock st in
  match z with
  | None => (Returned {| wall := t + host_utcoffset env t; tz := None |}, st)
  | Some z =>
      let off := tz_rules env (tz_name z) t in
      (Returned {| wall := t + off;
                   tz := Some {| zone := tz_name z; utcoffset := off |} |}, st)
  end.

(** [requests.get(url, params=params)]: the call is made, time passes,
    and the upstream's answer comes back. *)
Definition requests_get (url : string) (params : list (string * pyval)) : M Response :=
  fun env st =>
    let '(took, answer) := weather_api env url params in
    (answer, {| clock := clock st + took; sent := sent st ++ [HttpGet url params] |}).

(** [response.raise_for_status()]: the message it builds, empty for a
    status outside 400..599, and the [HTTPError] it raises otherwise. *)
Definition http_error_msg (r : Response) : string :=
  if bool_decide (400 <= resp_status_code r < 500) then
    pretty (resp_status_code r) +:+ " Client Error: " +:+ resp_reason r
      +:+ " for url: " +:+ resp_url r
  else if bool_decide (500 <= resp_status_code r < 600) then
    pretty (resp_status_code r) +:+ " Server Error: " +:+ resp_reason r
      +:+ " for url: " +:+ resp_url r
  else "".

Definition raise_for_status (r : Response) : M unit :=
  if bool_decide (http_error_msg r = "") then mret tt
  else raise (Exc HTTPError (http_error_msg r)).

(** [response.json()]. *)
Definition response_json (r : Response) : M pyval := lift (resp_json r).

(** The [openai] client and its [chat.completions.create]: one call of
    the function is one entry of the log, whatever number of HTTP requests
    the client sends for it. *)
Record OpenAI : Type := { api_key : string }.

Definition chat_completions_create (client : OpenAI) (call : chat_create)
    : M ChatCompletion :=
  fun env st =>
    let '(took, answer) := chat_api env (api_key client) call in
    (answer, {| clock := clock st + took;
                sent := sent st ++ [ChatCreate (api_key client) call] |}).

(** ** FastAPI: from a handler's outcome to the HTTP response *)

Inductive http_body (A : Type) : Type :=
  | Json (a : A)                      (* the returned value, serialised *)
  | ErrorDetail (detail : string)     (* the body [{"detail": detail}] *)
  | PlainText (text : string).
Arguments Json {A} a.
Arguments ErrorDetail {A} detail.
Arguments PlainText {A} text.

Record http_response (A : Type) : Type := { status : Z; body : http_body A }.
Arguments status {A} _.
Arguments body {A} _.

(** A float field as the JSON body carries it: a float that JSON cannot
    write (an infinity, a NaN) is written as [null]. *)
Definition json_float (o : option float64) : option float64 :=
  match o with
  | Some f => if is_finite f then Some f else None
  | None => None
  end.

(** A returned value is checked against the route's response model and
    sent with status 200; an [HTTPException] becomes a response with its
    status code and detail; anything else (another exception, or a value
    the response model rejects) ends as the server's plain 500. *)
Definition respond {A B} (response_model : A -> option B) (o : outcome A)
    : http_response B :=
  match o with
  | Returned a =>
      match response_model a with
      | Some b => {| status := 200; body := Json b |}
      | None => {| status := 500; body := PlainText "Internal Server Error" |}
      end
  | Raised (HTTPException status_code detail) =>
      {| status := status_code; body := ErrorDetail detail |}
  | Raised (Exc _ _) => {| status := 500; body := PlainText "Internal Server Error" |}
  end.

Definition route {A B} (response_model : A -> option B) (handler : M A)
    : Env -> State -> http_response B * State :=
  fun env st => let '(o, st') := handler env st in (respond response_model o, st').

(** * The repository *)

(** ** [app/models/schemas.py] *)
Module schemas.

Record WeatherResponse : Type := {
  city : string;
  temperature : option float64;
  humidity : option float64;
  timestamp : datetime
}.

Record TimeResponse : Type := {
  current_time : datetime;
  timezone : string
}.

Record ChatRequest : Type := { message : string }.

Record ChatResponse : Type := {
  response : string;
  chat_timestamp : datetime
}.

End schemas.

(** ** [app/services/weather_service.py] *)
Module weather_service.

Record WeatherService : Type := { base_url : string }.

Definition __init__ : WeatherService :=
  {| base_url := "https://api.open-meteo.com/v1/forecast" |}.

(** The dictionary [get_cuneo_weather] returns. *)
Record reading : Type := {
  city : string;
  temperature : option float64;
  humidity : option float64;
  timestamp : datetime
}.

(** [float(v) if v is not None else None]. *)
Definition float_unless_None (v : pyval) : M (option float64) :=
  match v with
  | PyNone => mret None
  | _ => env ← ask;
         f ← lift (py_float (float_of_str env) (repr_str env) v);
         mret (Some f)
  end.

(** The [params] dictionary of the outbound query, in source order. *)
Definition params : list (string * pyval) :=
  [ ("latitude", PyFloat (float_lit 44384 3));   (* Cuneo coordinates *)
    ("longitude", PyFloat (float_lit 7543 3));
    ("hourly", PyList [PyStr "temperature_2m"; PyStr "relative_humidity_2m"]);
    ("timezone", PyStr "Europe/Rome");
    ("current_weather", PyBool true) ].

(** Lines 29-42 of the handler: the reading taken from the decoded
    body [data]. *)
Definition extract (data : pyval) : M reading :=
  (* Extract current weather data *)
  current_weather ← lift (py_get data "current_weather" (PyDict ∅));
  temperature ← lift (py_get current_weather "temperature" PyNone);
  (* Get first hour's humidity from hourly data *)
  hourly_data ← lift (py_get data "hourly" (PyDict ∅));
  series ← lift (py_get hourly_data "relative_humidity_2m" (PyList [PyNone]));
  humidity ← lift (py_getitem0 series);
  temperature' ← float_unless_None temperature;
  humidity' ← float_unless_None humidity;
  now ← datetime_now None;
  mret {| city := "Cuneo";
          temperature := temperature';
          humidity := humidity';
          timestamp := now |}.

Definition get_cuneo_weather (self : WeatherService) : M reading :=
  try_except
    (response ← requests_get (base_url self) params;
     _ ← raise_for_status response;
     data ← response_json response;
     extract data)
    [ ([RequestException], fun e =>
         raise (HTTPException 500 ("Errore nel recupero dei dati meteo: " +:+ str e)));
      ([KeyError; IndexError; TypeError], fun e =>
         raise (HTTPException 500
                  ("Errore nel processamento dei dati meteo: " +:+ str e))) ].

Definition weather_service : WeatherService := __init__.

End weather_service.

(** ** [app/services/time_service.py] *)
Module time_service.

Record TimeService : Type := { timezone : timezone }.

(** [pytz.timezone('Europe/Rome')]. *)
Definition __init__ : TimeService := {| timezone := {| tz_name := "Europe/Rome" |} |}.

(** The dictionary [get_current_time] returns; [str] of a [pytz] zone is
    its name. *)
Record reading : Type := { current_time : datetime; timezone_str : string }.

Definition get_current_time (self : TimeService) : M reading :=
  current_time ← datetime_now (Some (timezone self));
  mret {| current_time := current_time;
          timezone_str := tz_name (timezone self) |}.

Definition time_service : TimeService := __init__.

End time_service.

(** ** [app/services/openai_service.py] *)
Module openai_service.

Record OpenAIService : Type := { client : OpenAI }.

Definition __init__ (settings : config.Settings) : OpenAIService :=
  {| client := {| api_key := config.OPENAI_API_KEY settings |} |}.

(** The dictionary [get_chat_response] returns. *)
Record exchange : Type := { response : option string; timestamp : datetime }.

(** [response.choices[0]]. *)
Definition first_choice (r : ChatCompletion) : outcome Choice :=
  match choices r with
  | [] => Raised (Exc IndexError "list index out of range")
  | c :: _ => Returned c
  end.

Definition get_chat_response (self : OpenAIService) (message : string) : M exchange :=
  try_except
    (response ← chat_completions_create (client self)
                  {| model := "gpt-3.5-turbo";
                     messages := [ {| role := "user"; content := message |} ];
                     max_tokens := 150 |};
     choice ← lift (first_choice response);
     now ← datetime_now None;
     mret {| response := message_content choice; timestamp := now |})
    [ ([Exception], fun e =>
         raise (HTTPException 500
                  ("Errore nella comunicazione con OpenAI: " +:+ str e))) ].

Definition openai_service (env : Env) : OpenAIService := __init__ (settings env).

End openai_service.

(** ** [app/main.py] *)
Module main.

Definition get_cuneo_weather : M weather_service.reading :=
  weather_service.get_cuneo_weather weather_service.weather_service.

Definition get_current_time : M time_service.reading :=
  time_service.get_current_time time_service.time_service.

Definition chat_with_ai (request : schemas.ChatRequest) : M openai_service.exchange :=
  env ← ask;
  openai_service.get_chat_response (openai_service.openai_service env)
    (schemas.message request).

Definition health_check : M (gmap string string) :=
  mret {[ "status" := "healthy" ]}.

(** The response models of the routes: the returned dictionary read as
    the schema, where it fits, with its fields as the JSON body carries
    them. *)
Definition as_WeatherResponse (d : weather_service.reading) : option schemas.WeatherResponse :=
  Some {| schemas.city := weather_service.city d;
          schemas.temperature := json_float (weather_service.temperature d);
          schemas.humidity := json_float (weather_service.humidity d);
          schemas.timestamp := weather_service.timestamp d |}.

Definition as_TimeResponse (d : time_service.reading) : option schemas.TimeResponse :=
  Some {| schemas.current_time := time_service.current_time d;
          schemas.timezone := time_service.timezone_str d |}.

Definition as_ChatResponse (d : openai_service.exchange) : option schemas.ChatResponse :=
  match openai_service.response d with
  | Some text => Some {| schemas.response := text;
                         schemas.chat_timestamp := openai_service.timestamp d |}
  | None => None
  end.

(** The four routes. *)
Definition GET_weather_cuneo := route as_WeatherResponse get_cuneo_weather.
Definition GET_time := route as_TimeResponse get_current_time.
Definition POST_chat (request : schemas.ChatRequest) :=
  route as_ChatResponse (chat_with_ai request).
Definition GET_health := route (@Some (gmap string string)) health_check.

End main.

(** * Vocabulary of the specification *)

(** [contains needle hay]: [needle] occurs in [hay]. *)
Fixpoint contains (needle hay : string) : bool :=
  String.prefix needle hay ||
  match hay with
  | EmptyString => false
  | String _ rest => contains needle rest
  end.

(** A numeric measurement: a JSON real that decodes to a finite float, or
    a JSON integer of at most 53 bits, which a float holds exactly. *)
Definition measurement (v : pyval) : Prop :=
  match v with
  | PyFloat f => is_finite f = true
  | PyInt z => Z.abs z < 2 ^ 53
  | _ => False
  end.

(** The float [f] is the upstream number [v], unchanged. *)
Definition same_number (v : pyval) (f : float64) : Prop :=
  match v with
  | PyFloat g => f = g
  | PyInt z => float_to_Z f = Some z
  | _ => False
  end.

(** Where a decoded payload carries the temperature: in the
    [current_weather] block, [None] standing for a missing block or a
    missing entry. *)
Inductive temperature_source (d : gmap string pyval) : pyval -> Prop :=
  | temperature_no_block :
      d !! "current_weather" = None -> temperature_source d PyNone
  | temperature_in_block cw :
      d !! "current_weather" = Some (PyDict cw) ->
      temperature_source d (default PyNone (cw !! "temperature")).

(** Where it carries the humidity: the first entry of the hourly series,
    [None] standing for a missing [hourly] block or a missing series. *)
Inductive humidity_source (d : gmap string pyval) : pyval -> Prop :=
  | humidity_no_block :
      d !! "hourly" = None -> humidity_source d PyNone
  | humidity_no_series h :
      d !! "hourly" = Some (PyDict h) -> h !! "relative_humidity_2m" = None ->
      humidity_source d PyNone
  | humidity_first_entry h x xs :
      d !! "hourly" = Some (PyDict h) ->
      h !! "relative_humidity_2m" = Some (PyList (x :: xs)) ->
      humidity_source d x.

(** The upstream answered the weather query with response [r] after
    [took] microseconds, with a status that [raise_for_status] lets
    through, and with a body that decodes to the object [d]. *)
Definition weather_answer (env : Env) (took : Z) (r : Response)
    (d : gmap string pyval) : Prop :=
  weather_api env "https://api.open-meteo.com/v1/forecast" weather_service.params
    = (took, Returned r) /\
  ~ (400 <= resp_status_code r < 600) /\
  resp_json r = Returned (PyDict d).

(** The naive local time on the host at instant [t]. *)
Definition local_time (env : Env) (t : Z) : datetime :=
  {| wall := t + host_utcoffset env t; tz := None |}.

(** The state after one library call that took [took] microseconds. *)
Definition after_call (st : State) (took : Z) (call : outbound) : State :=
  {| clock := clock st + took; sent := sent st ++ [call] |}.

(** What [float(v) if v is not None else None] yields: nothing for
    [None], the float for a value that [float] converts. *)
Inductive field_of (env : Env) : pyval -> option float64 -> Prop :=
  | field_absent : field_of env PyNone None
  | field_present v f :
      v <> PyNone -> py_float (float_of_str env) (repr_str env) v = Returned f ->
      field_of env v (Some f).

(** The weather query, as it is sent. *)
Definition weather_query : outbound :=
  HttpGet "https://api.open-meteo.com/v1/forecast" weather_service.params.

(** A value that has an element [0]: a list or a string that is not
    empty. *)
Definition indexable (v : pyval) : bool :=
  match v with
  | PyList (_ :: _) | PyStr (String _ _) => true
  | _ => false
  end.

(** The exception that [v[0]] raises on a value that has no element [0]. *)
Definition subscript_error (v : pyval) : exception :=
  match v with
  | PyList _ => Exc IndexError "list index out of range"
  | PyStr _ => Exc IndexError "string index out of range"
  | PyDict _ => Exc KeyError "0"
  | _ => Exc TypeError ("'" +:+ type_name v +:+ "' object is not subscriptable")
  end.

(** A list or an object, which [float] does not take. *)
Definition is_container (v : pyval) : bool :=
  match v with
  | PyList _ | PyDict _ => true
  | _ => false
  end.

(** The exception that [float(v)] raises on a list or an object. *)
Definition float_type_error (v : pyval) : exception :=
  Exc TypeError ("float() argument must be a string or a real number, not '"
                 +:+ type_name v +:+ "'").

(** The failures of the weather call that the handler answers itself: the
    exception raised inside the [try] block, and the prefix of the detail
    the handler reports.  The first three are failures of the transport
    (no answer, an answer with a 4xx or 5xx status, a body that does not
    decode); the last three are decoded object bodies with a value of the
    wrong type: a humidity series that has no element [0], a temperature
    that is a list or an object, a first humidity entry that is a list or
    an object. *)
Inductive weather_failure (env : Env) (took : Z) : exception -> string -> Prop :=
  | transport_failure e :
      weather_api env "https://api.open-meteo.com/v1/forecast" weather_service.params
        = (took, Raised e) ->
      isinstance e [RequestException] = true ->
      weather_failure env took e "Errore nel recupero dei dati meteo: "
  | error_status r :
      weather_api env "https://api.open-meteo.com/v1/forecast" weather_service.params
        = (took, Returned r) ->
      400 <= resp_status_code r < 600 ->
      weather_failure env took (Exc HTTPError (http_error_msg r))
        "Errore nel recupero dei dati meteo: "
  | undecodable_body r e :
      weather_api env "https://api.open-meteo.com/v1/forecast" weather_service.params
        = (took, Returned r) ->
      ~ (400 <= resp_status_code r < 600) ->
      resp_json r = Raised e ->
      isinstance e [RequestException] = true ->
      weather_failure env took e "Errore nel recupero dei dati meteo: "
  | series_without_first_entry r d h t series :
      weather_answer env took r d ->
      temperature_source d t ->
      d !! "hourly" = Some (PyDict h) ->
      h !! "relative_humidity_2m" = Some series ->
      indexable series = false ->
      weather_failure env took (subscript_error series)
        "Errore nel processamento dei dati meteo: "
  | temperature_not_a_number r d t x :
      weather_answer env took r d ->
      temperature_source d t -> humidity_source d x ->
      is_container t = true ->
      weather_failure env took (float_type_error t)
        "Errore nel processamento dei dati meteo: "
  | humidity_not_a_number r d t x T :
      weather_answer env took r d ->
      temperature_source d t -> humidity_source d x ->
      field_of env t T ->
      is_container x = true ->
      weather_failure env took (float_type_error x)
        "Errore nel processamento dei dati meteo: ".

(** The same world with another settings object, with another local zone
    on the host, and a state in which [d] more microseconds have passed. *)
Definition with_settings (env : Env) (s : config.Settings) : Env :=
  {| settings := s;
     weather_api := weather_api env;
     chat_api := chat_api env;
     host_utcoffset := host_utcoffset env;
     tz_rules := tz_rules env;
     float_of_str := float_of_str env;
     repr_str := repr_str env |}.

Definition with_host_utcoffset (env : Env) (h : Z -> Z) : Env :=
  {| settings := settings env;
     weather_api := weather_api env;
     chat_api := chat_api env;
     host_utcoffset := h;
     tz_rules := tz_rules env;
     float_of_str := float_of_str env;
     repr_str := repr_str env |}.

Definition elapse (d : Z) (st : State) : State :=
  {| clock := clock st + d; sent := sent st |}.

(** The single-turn payload the chat handler builds for [message]. *)
Definition chat_payload (message : string) : chat_create :=
  {| model := "gpt-3.5-turbo";
     messages := [ {| role := "user"; content := message |} ];
     max_tokens := 150 |}.

(** A computation that leaves the clock and the log of calls alone. *)
Definition keeps_state {A} (m : M A) : Prop :=
  forall env st, (m env st).2 = st.

(** A computation that never reads the settings object. *)
Definition ignores_settings {A} (m : M A) : Prop :=
  forall env s st, m (with_settings env s) st = m env st.

(** * Sample worlds *)
Module Sample.

(** A response with status 200 whose body decodes to [data]. *)
Definition ok_response (data : pyval) : Response :=
  {| resp_status_code := 200;
     resp_reason := "OK";
     resp_url := "https://api.open-meteo.com/v1/forecast";
     resp_json := Returned data |}.

(** A world whose weather upstream gives [weather] after a quarter of a
    second and whose chat upstream gives [chat] after two seconds; the
    host runs on UTC, Rome is one hour ahead, no string reads as a
    float, a string is shown between single quotes (its [repr] when it
    is plain text), and neither the process environment nor a
    repository file sets anything. *)
Definition world (weather : outcome Response) (chat : outcome ChatCompletion) : Env :=
  {| settings := config.Settings_new ∅ ∅;
     weather_api := fun _ _ => (250000, weather);
     chat_api := fun _ _ => (2000000, chat);
     host_utcoffset := fun _ => 0;
     tz_rules := fun _ _ => 3600000000;
     float_of_str := fun _ => None;
     repr_str := fun s => "'" +:+ s +:+ "'" |}.

Definition silent : outcome ChatCompletion :=
  Raised (Exc APIConnectionError "Connection error.").

(** A world in which the weather upstream answers 200 with [data]. *)
Definition weather_world (data : pyval) : Env :=
  world (Returned (ok_response data)) silent.

Definition noon : State := {| clock := 1700000000000000; sent := [] |}.

(** A complete body: 12.5 degrees, humidity series 87, 85. *)
Definition full_body : gmap string pyval :=
  {[ "current_weather" := PyDict {[ "temperature" := PyFloat (float_lit 125 1) ]};
     "hourly" := PyDict {[ "relative_humidity_2m" := PyList [PyInt 87; PyInt 85] ]} ]}.

(** A body with no [current_weather] and no [hourly] block. *)
Definition empty_body : gmap string pyval := ∅.

(** A body with no [current_weather] block and an empty series. *)
Definition no_current_empty_series : gmap string pyval :=
  {[ "hourly" := PyDict {[ "relative_humidity_2m" := PyList [] ]} ]}.

(** A body with a temperature and an empty series. *)
Definition empty_series : gmap string pyval :=
  {[ "current_weather" := PyDict {[ "temperature" := PyFloat (float_lit 125 1) ]};
     "hourly" := PyDict {[ "relative_humidity_2m" := PyList [] ]} ]}.

(** A body with a temperature and no [hourly] block. *)
Definition no_hourly : gmap string pyval :=
  {[ "current_weather" := PyDict {[ "temperature" := PyFloat (float_lit 125 1) ]} ]}.

Definition refused : exception :=
  Exc ConnectionError "HTTPSConnectionPool(host='api.open-meteo.com', port=443): Max retries exceeded".

Definition rate_limited : exception :=
  Exc RateLimitError "Error code: 429 - Rate limit reached".

Definition greeting : ChatCompletion :=
  {| choices := [ {| message_content := Some "Ciao!" |} ] |}.

End Sample.

(** * The application as a whole *)

(** A request to one of the four routes that [main.py] registers, its
    body (when it has one) already read as the route's request model. *)
Inductive request : Type :=
  | GetWeatherCuneo
  | GetTime
  | PostChat (body : schemas.ChatRequest)
  | GetHealth.

(** The status of the answer to one request, and the state it leaves. *)
Definition serve (req : request) (env : Env) (st : State) : Z * State :=
  match req with
  | GetWeatherCuneo => let '(r, st') := main.GET_weather_cuneo env st in (status r, st')
  | GetTime => let '(r, st') := main.GET_time env st in (status r, st')
  | PostChat body => let '(r, st') := main.POST_chat body env st in (status r, st')
  | GetHealth => let '(r, st') := main.GET_health env st in (status r, st')
  end.

(** Requests served one after the other. *)
Fixpoint serve_all (reqs : list request) (env : Env) (st : State) : list Z * State :=
  match reqs with
  | [] => ([], st)
  | req :: rest =>
      let '(code, st') := serve req env st in
      let '(codes, st'') := serve_all rest env st' in
      (code :: codes, st'')
  end.

(** The library calls a request stands for. *)
Definition calls_of (env : Env) (req : request) : list outbound :=
  match req with
  | GetWeatherCuneo => [weather_query]
  | PostChat body =>
      [ChatCreate (config.OPENAI_API_KEY (settings env))
         (chat_payload (schemas.message body))]
  | GetTime | GetHealth => []
  end.

(** ** More vocabulary for the weather handler *)

Definition is_object (v : pyval) : bool :=
  match v with
  | PyDict _ => true
  | _ => false
  end.

(** An exception raised inside the [try] block of the weather handler, by
    whichever step, and the state in which it is raised. *)
Inductive raised_in_try (env : Env) (st : State) : exception -> State -> Prop :=
  | raised_by_get took e :
      weather_api env "https://api.open-meteo.com/v1/forecast" weather_service.params
        = (took, Raised e) ->
      raised_in_try env st e (after_call st took weather_query)
  | raised_by_status took r :
      weather_api env "https://api.open-meteo.com/v1/forecast" weather_service.params
        = (took, Returned r) ->
      400 <= resp_status_code r < 600 ->
      raised_in_try env st (Exc HTTPError (http_error_msg r))
        (after_call st took weather_query)
  | raised_by_json took r e :
      weather_api env "https://api.open-meteo.com/v1/forecast" weather_service.params
        = (took, Returned r) ->
      ~ (400 <= resp_status_code r < 600) ->
      resp_json r = Raised e ->
      raised_in_try env st e (after_call st took weather_query)
  | raised_by_extract took r data e st' :
      weather_api env "https://api.open-meteo.com/v1/forecast" weather_service.params
        = (took, Returned r) ->
      ~ (400 <= resp_status_code r < 600) ->
      resp_json r = Returned data ->
      weather_service.extract data env (after_call st took weather_query)
        = (Raised e, st') ->
      raised_in_try env st e st'.

(** The upstream answered the weather query with a response that passes
    [raise_for_status] and whose body decodes to [data], of any shape. *)
Definition weather_body (env : Env) (took : Z) (r : Response) (data : pyval) : Prop :=
  weather_api env "https://api.open-meteo.com/v1/forecast" weather_service.params
    = (took, Returned r) /\
  ~ (400 <= resp_status_code r < 600) /\
  resp_json r = Returned data.

(** An ordinary error of a library: an instance of [Exception] that is not
    FastAPI's own [HTTPException]. *)
Definition ordinary_error (e : exception) : bool :=
  isinstance e [Exception] &&
  match e with
  | Exc _ _ => true
  | HTTPException _ _ => false
  end.

(** The weather upstream raises ordinary errors only, from the call and
    from the decoding of the body. *)
Definition weather_errors_ordinary (env : Env) : Prop :=
  (forall took e,
     weather_api env "https://api.open-meteo.com/v1/forecast" weather_service.params
       = (took, Raised e) -> ordinary_error e = true) /\
  (forall took r e,
     weather_api env "https://api.open-meteo.com/v1/forecast" weather_service.params
       = (took, Returned r) -> resp_json r = Raised e -> ordinary_error e = true).

(** The chat upstream raises instances of [Exception] only. *)
Definition chat_errors_ordinary (env : Env) (message : string) : Prop :=
  forall took e,
    chat_api env (config.OPENAI_API_KEY (settings env)) (chat_payload message)
      = (took, Raised e) -> isinstance e [Exception] = true.

(** ** More sample worlds *)
Module Cases.

(** A body whose [current_weather] entry is [None]. *)
Definition null_block : gmap string pyval :=
  {[ "current_weather" := PyNone;
     "hourly" := PyDict {[ "relative_humidity_2m" := PyList [PyInt 87] ]} ]}.

(** A body whose humidity series is [None]. *)
Definition null_series : gmap string pyval :=
  {[ "hourly" := PyDict {[ "relative_humidity_2m" := PyNone ]} ]}.

(** A body whose temperature is a list. *)
Definition list_temperature : gmap string pyval :=
  {[ "current_weather" := PyDict {[ "temperature" := PyList [PyInt 12] ]} ]}.

(** A body whose temperature is a string. *)
Definition text_temperature : gmap string pyval :=
  {[ "current_weather" := PyDict {[ "temperature" := PyStr "n/a" ]} ]}.

(** A body with the values of [Sample.full_body] and more around them. *)
Definition busy_body : gmap string pyval :=
  {[ "latitude" := PyFloat (float_lit 44384 3);
     "current_weather" :=
       PyDict {[ "temperature" := PyFloat (float_lit 125 1);
                 "windspeed" := PyFloat (float_lit 36 1) ]};
     "hourly" :=
       PyDict {[ "relative_humidity_2m" := PyList [PyInt 87; PyNone; PyStr "?"];
                 "temperature_2m" := PyList [PyFloat (float_lit 118 1)] ]} ]}.

Definition no_choice : ChatCompletion := {| choices := [] |}.

Definition no_content : ChatCompletion :=
  {| choices := [ {| message_content := None |} ] |}.

End Cases.

(** * Facts about binary64 conversion *)

Section Float64Facts.

Lemma digits2_pos_bound (m : positive) (n : Z) :
  0 <= n -> Zpos m < 2 ^ n -> Zpos (digits2_pos m) <= n.
Proof.
  revert n. induction m as [m IH | m IH |]; intros n Hn Hlt; simpl.
  - assert (n <> 0) by (intros ->; simpl in Hlt; lia).
    replace n with (Z.succ (n - 1)) in Hlt by lia.
    rewrite Z.pow_succ_r in Hlt by lia.
    specialize (IH (n - 1)). lia.
  - assert (n <> 0) by (intros ->; simpl in Hlt; lia).
    replace n with (Z.succ (n - 1)) in Hlt by lia.
    rewrite Z.pow_succ_r in Hlt by lia.
    specialize (IH (n - 1)). lia.
  - assert (n <> 0) by (intros ->; simpl in Hlt; lia). lia.
Qed.

Lemma iter_xO_digits (p m : positive) :
  Zpos (digits2_pos (Pos.iter xO m p)) = Zpos (digits2_pos m) + Zpos p.
Proof.
  induction p as [|p IH] using Pos.peano_ind.
  - simpl. lia.
  - rewrite Pos.iter_succ. simpl. lia.
Qed.

Lemma iter_xO_value (p m : positive) :
  Zpos (Pos.iter xO m p) = Zpos m * 2 ^ Zpos p.
Proof.
  induction p as [|p IH] using Pos.peano_ind.
  - simpl. lia.
  - rewrite Pos.iter_succ, Pos2Z.inj_succ, Z.pow_succ_r by lia.
    rewrite Pos2Z.inj_xO, IH. lia.
Qed.

(** A mantissa of exactly 53 bits is already in canonical position:
    nothing is shifted out and nothing is rounded. *)
Lemma shr_fexp_canonical (mz : positive) (ez : Z) :
  Zpos (digits2_pos mz) = 53 -> -1074 <= ez ->
  shr_fexp prec64 emax64 (Zpos mz) ez loc_Exact =
    ({| shr_m := Zpos mz; shr_r := false; shr_s := false |}, ez).
Proof.
  intros Hd He. unfold shr_fexp. simpl Zdigits2. rewrite Hd.
  replace (fexp prec64 emax64 (53 + ez) - ez) with 0
    by (unfold fexp, emin, prec64, emax64; lia).
  reflexivity.
Qed.

Lemma binary_round_aux_canonical (s : bool) (mz : positive) (ez : Z) :
  Zpos (digits2_pos mz) = 53 -> -1074 <= ez <= 971 ->
  binary_round_aux prec64 emax64 s (Zpos mz) ez loc_Exact = S754_finite s mz ez.
Proof.
  intros Hd He. unfold binary_round_aux.
  rewrite shr_fexp_canonical by (auto; lia). simpl.
  rewrite shr_fexp_canonical by (auto; lia). simpl.
  destruct (Z.leb_spec ez (emax64 - prec64)); [reflexivity|].
  unfold emax64, prec64 in *. lia.
Qed.

(** An integer of at most 53 bits is converted without rounding. *)
Lemma binary_round_exact (s : bool) (m : positive) :
  Zpos (digits2_pos m) <= 53 ->
  exists mz ez,
    binary_round prec64 emax64 s m 0 = S754_finite s mz ez /\
    -52 <= ez <= 0 /\ Zpos mz = Zpos m * 2 ^ (- ez).
Proof.
  intros Hd.
  assert (Hpos : 0 < Zpos (digits2_pos m)) by lia.
  unfold binary_round, shl_align.
  replace (fexp prec64 emax64 (Zpos (digits2_pos m) + 0))
    with (Zpos (digits2_pos m) - 53)
    by (unfold fexp, emin, prec64, emax64; lia).
  destruct (Zpos (digits2_pos m) - 53 - 0) as [|q|q] eqn:Hq; try lia.
  - exists m, 0. split; [|split; [lia|simpl; lia]].
    apply binary_round_aux_canonical; lia.
  - exists (Pos.iter xO m q), (Zpos (digits2_pos m) - 53).
    split; [|split; [lia|]].
    + apply binary_round_aux_canonical; [rewrite iter_xO_digits|]; lia.
    + rewrite iter_xO_value. f_equal. f_equal. lia.
Qed.

Lemma float_to_Z_finite (s : bool) (m mz : positive) (ez : Z) :
  -52 <= ez <= 0 -> Zpos mz = Zpos m * 2 ^ (- ez) ->
  float_to_Z (S754_finite s mz ez) = Some (cond_Zopp s (Zpos m)).
Proof.
  intros Hez Hmz. destruct ez as [|p|p]; try lia.
  - simpl in *. do 2 f_equal. lia.
  - unfold float_to_Z. change (- Zneg p) with (Zpos p) in Hmz. rewrite Hmz.
    assert (0 < 2 ^ Zpos p) by (apply Z.pow_pos_nonneg; lia).
    rewrite Z.mod_mul, Z.div_mul by lia.
    rewrite decide_True by reflexivity. reflexivity.
Qed.

(** [float(z)] returns, and returns [z] itself, for every integer below
    2^53 in magnitude. *)
Lemma py_float_int_exact parse repr (z : Z) :
  Z.abs z < 2 ^ 53 ->
  exists f, py_float parse repr (PyInt z) = Returned f /\ float_to_Z f = Some z.
Proof.
  intros Hz. unfold py_float, float_of_Z, binary_normalize.
  destruct z as [|m|m].
  - eexists. split; reflexivity.
  - destruct (binary_round_exact false m) as (mz & ez & -> & He & Hm).
    { apply digits2_pos_bound; lia. }
    eexists. split; [reflexivity|]. apply (float_to_Z_finite false m); auto.
  - destruct (binary_round_exact true m) as (mz & ez & -> & He & Hm).
    { apply digits2_pos_bound; lia. }
    eexists. split; [reflexivity|]. apply (float_to_Z_finite true m); auto.
Qed.
End Float64Facts.

(** * Running the monad *)

Section Run.
Context {A B : Type}.
Implicit Types (env : Env) (st : State).

Lemma bind_Returned (m : M A) (k : A -> M B) env st a st' :
  m env st = (Returned a, st') -> (m ≫= k) env st = k a env st'.
Proof. unfold mbind, M_bind. intros ->. reflexivity. Qed.

Lemma bind_Raised (m : M A) (k : A -> M B) env st e st' :
  m env st = (Raised e, st') -> (m ≫= k) env st = (Raised e, st').
Proof. unfold mbind, M_bind. intros ->. reflexivity. Qed.

Lemma try_Returned (body : M A) clauses env st a st' :
  body env st = (Returned a, st') ->
  try_except body clauses env st = (Returned a, st').
Proof. unfold try_except. intros ->. reflexivity. Qed.

Lemma try_Raised (body : M A) clauses env st e st' :
  body env st = (Raised e, st') ->
  try_except body clauses env st = dispatch clauses e env st'.
Proof. unfold try_except. intros ->. reflexivity. Qed.

Lemma bind_Returned_inv (m : M A) (k : A -> M B) env st b st' :
  (m ≫= k) env st = (Returned b, st') ->
  exists a s, m env st = (Returned a, s) /\ k a env s = (Returned b, st').
Proof.
  unfold mbind, M_bind. destruct (m env st) as [[a|e] s]; [eauto | discriminate].
Qed.

Lemma keeps_state_bind (m : M A) (k : A -> M B) :
  keeps_state m -> (forall a, keeps_state (k a)) -> keeps_state (m ≫= k).
Proof.
  intros Hm Hk env st. unfold mbind, M_bind.
  specialize (Hm env st). destruct (m env st) as [[a|e] st']; simpl in *; subst.
  - apply Hk.
  - reflexivity.
Qed.

Lemma keeps_state_lift (o : outcome A) : keeps_state (lift o).
Proof. intros env st. reflexivity. Qed.

Lemma keeps_state_ret (a : A) : keeps_state (mret a : M A).
Proof. intros env st. reflexivity. Qed.

Lemma keeps_state_raise (e : exception) : keeps_state (raise e : M A).
Proof. intros env st. reflexivity. Qed.

(** A first step followed by steps that keep the state ends in the
    state the first step left. *)
Lemma bind_state (m : M A) (k : A -> M B) env st :
  (forall a, keeps_state (k a)) -> ((m ≫= k) env st).2 = (m env st).2.
Proof.
  intros Hk. unfold mbind, M_bind.
  destruct (m env st) as [[a|e] st']; simpl; [apply Hk | reflexivity].
Qed.

Lemma try_state (body : M A) clauses env st :
  (forall e, keeps_state (dispatch clauses e)) ->
  (try_except body clauses env st).2 = (body env st).2.
Proof.
  intros Hc. unfold try_except.
  destruct (body env st) as [[a|e] st']; simpl; [reflexivity | apply Hc].
Qed.
End Run.

Create HintDb keeps.
#[local] Hint Resolve keeps_state_lift keeps_state_ret keeps_state_raise : keeps.

Lemma keeps_state_ask : keeps_state ask.
Proof. intros env st. reflexivity. Qed.

Lemma keeps_state_now z : keeps_state (datetime_now z).
Proof. intros env st. destruct z; reflexivity. Qed.

Lemma keeps_state_raise_for_status r : keeps_state (raise_for_status r).
Proof. intros env st. unfold raise_for_status. case_bool_decide; reflexivity. Qed.

#[local] Hint Resolve keeps_state_ask keeps_state_now keeps_state_raise_for_status : keeps.

Ltac keeps :=
  repeat first
    [ match goal with |- forall _, _ => intro end
    | solve [auto with keeps]
    | apply keeps_state_bind ].

(** * Facts about the library calls *)

Lemma http_error_msg_ok (r : Response) :
  ~ (400 <= resp_status_code r < 600) -> http_error_msg r = "".
Proof.
  intros H. unfold http_error_msg.
  rewrite (bool_decide_eq_false_2 (400 <= _ < 500)) by lia.
  rewrite (bool_decide_eq_false_2 (500 <= _ < 600)) by lia. reflexivity.
Qed.

Lemma append_nonempty (s t : string) : t <> "" -> s +:+ t <> "".
Proof. destruct s; simpl; [auto | discriminate]. Qed.

Lemma http_error_msg_error (r : Response) :
  400 <= resp_status_code r < 600 -> http_error_msg r <> "".
Proof.
  intros H. unfold http_error_msg.
  repeat case_bool_decide; try lia; apply append_nonempty; discriminate.
Qed.

Lemma raise_for_status_ok (r : Response) env st :
  ~ (400 <= resp_status_code r < 600) ->
  raise_for_status r env st = (Returned (), st).
Proof.
  intros H. unfold raise_for_status.
  rewrite http_error_msg_ok by assumption. reflexivity.
Qed.

Lemma raise_for_status_error (r : Response) env st :
  400 <= resp_status_code r < 600 ->
  raise_for_status r env st = (Raised (Exc HTTPError (http_error_msg r)), st).
Proof.
  intros H. unfold raise_for_status.
  rewrite bool_decide_eq_false_2 by (apply http_error_msg_error; assumption).
  reflexivity.
Qed.

Lemma prefix_refl (s : string) : String.prefix s s = true.
Proof.
  induction s as [|c s IH]; simpl; [reflexivity|].
  destruct (Ascii.ascii_dec c c); [exact IH | congruence].
Qed.

Lemma contains_append (p s : string) : contains s (p +:+ s) = true.
Proof.
  induction p as [|c p IH].
  - change ("" +:+ s) with s.
    destruct s as [|c s]; [reflexivity|].
    change (contains (String c s) (String c s))
      with (String.prefix (String c s) (String c s) || contains (String c s) s).
    rewrite prefix_refl. reflexivity.
  - change (String c p +:+ s) with (String c (p +:+ s)).
    change (contains s (String c (p +:+ s)))
      with (String.prefix s (String c (p +:+ s)) || contains s (p +:+ s)).
    rewrite IH. apply orb_true_r.
Qed.

(** Six levels reach every base class: a deeper search finds nothing
    more. *)
Lemma issubclass_saturated (c d : exc_class) :
  issubclass_upto 7 c d = issubclass c d.
Proof. destruct c, d; vm_compute; reflexivity. Qed.

(** * The weather handler *)

Section Weather.
Variables (env : Env) (st : State).
Implicit Types (d : gmap string pyval) (r : Response) (took : Z).

Lemma float_unless_None_field (s : State) (v : pyval) (o : option float64) :
  field_of env v o ->
  weather_service.float_unless_None v env s = (Returned o, s).
Proof.
  intros [|v' f Hv Hf]; [reflexivity|].
  destruct v'; try congruence;
    unfold weather_service.float_unless_None, mbind, M_bind, ask, lift;
    rewrite Hf; reflexivity.
Qed.

Lemma keeps_state_float_unless_None (v : pyval) :
  keeps_state (weather_service.float_unless_None v).
Proof. destruct v; unfold weather_service.float_unless_None; keeps. Qed.

Hint Resolve keeps_state_float_unless_None : keeps.

Lemma keeps_state_extract (data : pyval) : keeps_state (weather_service.extract data).
Proof.
  unfold weather_service.extract. keeps.
Qed.

(** The extraction on a body that carries both values, or lacks them. *)
Lemma extract_returns (s : State) d (t x : pyval) (T H : option float64) :
  temperature_source d t -> humidity_source d x ->
  field_of env t T -> field_of env x H ->
  weather_service.extract (PyDict d) env s =
    (Returned {| weather_service.city := "Cuneo";
                 weather_service.temperature := T;
                 weather_service.humidity := H;
                 weather_service.timestamp := local_time env (clock s) |}, s).
Proof.
  intros Ht Hx HT HH. unfold weather_service.extract.
  assert (Htemp : forall k : pyval -> M weather_service.reading,
    (lift (py_get (PyDict d) "current_weather" (PyDict ∅)) ≫= λ cw,
       lift (py_get cw "temperature" PyNone) ≫= k) env s = k t env s).
  { intros k. destruct Ht as [Hcw | cw Hcw];
      unfold mbind, M_bind, lift; simpl; rewrite Hcw; reflexivity. }
  rewrite Htemp.
  assert (Hhum : forall k : pyval -> M weather_service.reading,
    (lift (py_get (PyDict d) "hourly" (PyDict ∅)) ≫= λ hourly_data,
       lift (py_get hourly_data "relative_humidity_2m" (PyList [PyNone])) ≫= λ series,
         lift (py_getitem0 series) ≫= k) env s = k x env s).
  { intros k. destruct Hx as [Hh | h Hh Hs | h x xs Hh Hs];
      unfold mbind, M_bind, lift; simpl; rewrite Hh; simpl;
      try rewrite Hs; reflexivity. }
  rewrite Hhum.
  rewrite (bind_Returned _ _ _ _ _ _ (float_unless_None_field s t T HT)).
  rewrite (bind_Returned _ _ _ _ _ _ (float_unless_None_field s x H HH)).
  reflexivity.
Qed.

(** The extraction on a body whose humidity series is present and
    empty: line 35 raises before any conversion. *)
Lemma extract_empty_series (s : State) d (t : pyval) (h : gmap string pyval) :
  temperature_source d t ->
  d !! "hourly" = Some (PyDict h) ->
  h !! "relative_humidity_2m" = Some (PyList []) ->
  weather_service.extract (PyDict d) env s =
    (Raised (Exc IndexError "list index out of range"), s).
Proof.
  intros Ht Hh Hs. unfold weather_service.extract.
  destruct Ht as [Hcw | cw Hcw];
    unfold mbind, M_bind, lift; simpl; rewrite Hcw; simpl;
    rewrite Hh; simpl; rewrite Hs; reflexivity.
Qed.

(** The first three steps of the [try] block, on an answer that passes
    them. *)
Lemma fetch_returns took r (data : pyval) (k : pyval -> M weather_service.reading) :
  weather_api env "https://api.open-meteo.com/v1/forecast" weather_service.params
    = (took, Returned r) ->
  ~ (400 <= resp_status_code r < 600) ->
  resp_json r = Returned data ->
  (response ← requests_get "https://api.open-meteo.com/v1/forecast"
                weather_service.params;
   _ ← raise_for_status response;
   data ← response_json response;
   k data) env st
  = k data env (after_call st took weather_query).
Proof.
  intros Hapi Hstatus Hjson.
  erewrite bind_Returned by (unfold requests_get; rewrite Hapi; reflexivity).
  erewrite bind_Returned by (apply raise_for_status_ok; exact Hstatus).
  erewrite bind_Returned by (unfold response_json, lift; rewrite Hjson; reflexivity).
  reflexivity.
Qed.

(** A reading is returned for every answer whose body carries the two
    values, or lacks them, in the expected places. *)
Lemma get_cuneo_weather_returns took r d (t x : pyval) (T H : option float64) :
  weather_answer env took r d ->
  temperature_source d t -> humidity_source d x ->
  field_of env t T -> field_of env x H ->
  main.get_cuneo_weather env st =
    (Returned {| weather_service.city := "Cuneo";
                 weather_service.temperature := T;
                 weather_service.humidity := H;
                 weather_service.timestamp :=
                   local_time env (clock st + took) |},
     after_call st took weather_query).
Proof.
  intros (Hapi & Hstatus & Hjson) Ht Hx HT HH.
  unfold main.get_cuneo_weather, weather_service.get_cuneo_weather.
  apply try_Returned. simpl weather_service.base_url.
  rewrite (fetch_returns took r (PyDict d)) by assumption.
  apply (extract_returns (after_call st took weather_query) d t x); assumption.
Qed.

End Weather.

#[local] Hint Resolve keeps_state_float_unless_None keeps_state_extract : keeps.

(** What the handler does with an exception raised inside its [try]
    block: the first clause that names it answers, and an exception that
    no clause names leaves the handler as it is. *)
Lemma get_cuneo_weather_raised (env : Env) (st st' : State) (e : exception) :
  raised_in_try env st e st' ->
  main.get_cuneo_weather env st =
    (Raised
       (if isinstance e [RequestException]
        then HTTPException 500 ("Errore nel recupero dei dati meteo: " +:+ str e)
        else if isinstance e [KeyError; IndexError; TypeError]
        then HTTPException 500 ("Errore nel processamento dei dati meteo: " +:+ str e)
        else e),
     st').
Proof.
  intros Hraised.
  unfold main.get_cuneo_weather, weather_service.get_cuneo_weather.
  simpl weather_service.base_url.
  destruct Hraised as [took e Hapi | took r Hapi Hstatus
                      | took r e Hapi Hstatus Hjson
                      | took r data e st' Hapi Hstatus Hjson Hex].
  - erewrite try_Raised
      by (apply bind_Raised; unfold requests_get; rewrite Hapi; reflexivity).
    cbn [dispatch]. repeat case_match; reflexivity.
  - erewrite try_Raised; cycle 1.
    { erewrite bind_Returned by (unfold requests_get; rewrite Hapi; reflexivity).
      apply bind_Raised, raise_for_status_error, Hstatus. }
    cbn [dispatch]. repeat case_match; reflexivity.
  - erewrite try_Raised; cycle 1.
    { erewrite bind_Returned by (unfold requests_get; rewrite Hapi; reflexivity).
      erewrite bind_Returned by (apply raise_for_status_ok; exact Hstatus).
      apply bind_Raised. unfold response_json, lift. rewrite Hjson. reflexivity. }
    cbn [dispatch]. repeat case_match; reflexivity.
  - erewrite try_Raised; cycle 1.
    { rewrite (fetch_returns env st took r data) by assumption. exact Hex. }
    cbn [dispatch]. repeat case_match; reflexivity.
Qed.

Lemma raised_in_extract (env : Env) (st : State) (took : Z) (r : Response)
    (data : pyval) (e : exception) :
  weather_body env took r data ->
  weather_service.extract data env (after_call st took weather_query)
    = (Raised e, after_call st took weather_query) ->
  raised_in_try env st e (after_call st took weather_query).
Proof.
  intros (Hapi & Hstatus & Hjson) Hex.
  exact (raised_by_extract env st took r data e _ Hapi Hstatus Hjson Hex).
Qed.

Lemma route_Exc {A B} (model : A -> option B) (h : M A) env st cls msg st' :
  h env st = (Raised (Exc cls msg), st') ->
  route model h env st =
    ({| status := 500; body := PlainText "Internal Server Error" |}, st').
Proof. unfold route, respond. intros ->. reflexivity. Qed.

(** Line 35 can only raise what the second clause names. *)
Lemma py_getitem0_raises (v : pyval) (e : exception) :
  py_getitem0 v = Raised e ->
  isinstance e [RequestException] = false /\
  isinstance e [KeyError; IndexError; TypeError] = true.
Proof.
  destruct v as [| | | |s|l|]; simpl; try (intros [= <-]; split; reflexivity).
  - destruct s; intros [= <-]; split; reflexivity.
  - destruct l; intros [= <-]; split; reflexivity.
Qed.

(** The first two steps of the extraction: the temperature entry. *)
Lemma extract_temperature_step (env : Env) (s : State) (d : gmap string pyval)
    (t : pyval) (k : pyval -> M weather_service.reading) :
  temperature_source d t ->
  (lift (py_get (PyDict d) "current_weather" (PyDict ∅)) ≫= λ cw,
     lift (py_get cw "temperature" PyNone) ≫= k) env s = k t env s.
Proof.
  intros [Hcw | cw Hcw];
    unfold mbind, M_bind, lift; simpl; rewrite Hcw; reflexivity.
Qed.

(** The next three steps: the first entry of the humidity series. *)
Lemma extract_humidity_step (env : Env) (s : State) (d : gmap string pyval)
    (x : pyval) (k : pyval -> M weather_service.reading) :
  humidity_source d x ->
  (lift (py_get (PyDict d) "hourly" (PyDict ∅)) ≫= λ hourly_data,
     lift (py_get hourly_data "relative_humidity_2m" (PyList [PyNone])) ≫= λ series,
       lift (py_getitem0 series) ≫= k) env s = k x env s.
Proof.
  intros [Hh | h Hh Hs | h x' xs Hh Hs];
    unfold mbind, M_bind, lift; simpl; rewrite Hh; simpl;
    try rewrite Hs; reflexivity.
Qed.


(** * The claims about the weather handler *)

Lemma measurement_field (env : Env) (v : pyval) :
  measurement v -> exists f, field_of env v (Some f) /\ same_number v f.
Proof.
  destruct v as [| |z|f| | |]; simpl; try contradiction; intros Hv.
  - destruct (py_float_int_exact (float_of_str env) (repr_str env) z Hv)
      as (f & Hf & Hz).
    exists f. split; [constructor; [discriminate | exact Hf] | exact Hz].
  - exists f. split; [constructor; [discriminate | reflexivity] | reflexivity].
Qed.

Lemma route_HTTPException {A B} (model : A -> option B) (h : M A) env st code detail st' :
  h env st = (Raised (HTTPException code detail), st') ->
  route model h env st = ({| status := code; body := ErrorDetail detail |}, st').
Proof. unfold route, respond. intros ->. reflexivity. Qed.

(** C1.  When the upstream answers with a body that holds a temperature in
    its current-weather block and a non-empty hourly relative-humidity
    series, both of them numbers, [get_cuneo_weather] returns a reading
    whose temperature is that temperature and whose humidity is the first
    entry of the series, each unchanged. *)
Theorem weather_values_verbatim (env : Env) (st : State) (took : Z) (r : Response)
    (d cw h : gmap string pyval) (t x : pyval) (xs : list pyval) :
  weather_answer env took r d ->
  d !! "current_weather" = Some (PyDict cw) -> cw !! "temperature" = Some t ->
  d !! "hourly" = Some (PyDict h) ->
  h !! "relative_humidity_2m" = Some (PyList (x :: xs)) ->
  measurement t -> measurement x ->
  exists T H,
    main.get_cuneo_weather env st =
      (Returned {| weather_service.city := "Cuneo";
                   weather_service.temperature := Some T;
                   weather_service.humidity := Some H;
                   weather_service.timestamp := local_time env (clock st + took) |},
       after_call st took weather_query)
    /\ same_number t T /\ same_number x H.
Proof.
  intros Hans Hcw Ht Hh Hs Mt Mx.
  destruct (measurement_field env t Mt) as (T & HT & HtT).
  destruct (measurement_field env x Mx) as (H & HH & HxH).
  exists T, H. split; [|split; assumption].
  apply (get_cuneo_weather_returns env st took r d t x); try assumption.
  - replace t with (default PyNone (cw !! "temperature")) by (rewrite Ht; reflexivity).
    apply temperature_in_block, Hcw.
  - exact (humidity_first_entry d h x xs Hh Hs).
Qed.

Lemma weather_values_verbatim_witness :
  exists T H,
    main.get_cuneo_weather (Sample.weather_world (PyDict Sample.full_body))
      Sample.noon =
      (Returned {| weather_service.city := "Cuneo";
                   weather_service.temperature := Some T;
                   weather_service.humidity := Some H;
                   weather_service.timestamp := {| wall := 1700000000250000; tz := None |} |},
       {| clock := 1700000000250000; sent := [weather_query] |})
    /\ T = float_lit 125 1 /\ float_to_Z H = Some 87.
Proof.
  apply (weather_values_verbatim
           (Sample.weather_world (PyDict Sample.full_body)) Sample.noon 250000
           (Sample.ok_response (PyDict Sample.full_body)) Sample.full_body
           {[ "temperature" := PyFloat (float_lit 125 1) ]}
           {[ "relative_humidity_2m" := PyList [PyInt 87; PyInt 85] ]}
           (PyFloat (float_lit 125 1)) (PyInt 87) [PyInt 85]).
  - split; [reflexivity | split; [simpl; lia | reflexivity]].
  - reflexivity.
  - reflexivity.
  - reflexivity.
  - reflexivity.
  - reflexivity.
  - simpl. lia.
Defined.

(** C2.  When the body has no [current_weather] entry and its humidity can
    be read (the hourly block or the series is missing, or the series is
    a non-empty list whose first entry is [None] or a value that [float]
    converts), the request succeeds with status 200 and the temperature is
    [None]. *)
Theorem missing_current_weather_is_absent (env : Env) (st : State) (took : Z)
    (r : Response) (d : gmap string pyval) (x : pyval) (H : option float64) :
  weather_answer env took r d ->
  d !! "current_weather" = None ->
  humidity_source d x -> field_of env x H ->
  main.get_cuneo_weather env st =
    (Returned {| weather_service.city := "Cuneo";
                 weather_service.temperature := None;
                 weather_service.humidity := H;
                 weather_service.timestamp := local_time env (clock st + took) |},
     after_call st took weather_query)
  /\ main.GET_weather_cuneo env st =
       ({| status := 200;
           body := Json {| schemas.city := "Cuneo";
                           schemas.temperature := None;
                           schemas.humidity := json_float H;
                           schemas.timestamp := local_time env (clock st + took) |} |},
        after_call st took weather_query).
Proof.
  intros Hans Hcw Hx HH.
  assert (Hrun : main.get_cuneo_weather env st =
    (Returned {| weather_service.city := "Cuneo";
                 weather_service.temperature := None;
                 weather_service.humidity := H;
                 weather_service.timestamp := local_time env (clock st + took) |},
     after_call st took weather_query)).
  { apply (get_cuneo_weather_returns env st took r d PyNone x None H); auto.
    - apply temperature_no_block, Hcw.
    - constructor. }
  split; [exact Hrun|].
  unfold main.GET_weather_cuneo, route. rewrite Hrun. reflexivity.
Qed.

Lemma missing_current_weather_is_absent_witness :
  main.GET_weather_cuneo (Sample.weather_world (PyDict Sample.empty_body))
    Sample.noon =
    ({| status := 200;
        body := Json {| schemas.city := "Cuneo";
                        schemas.temperature := None;
                        schemas.humidity := None;
                        schemas.timestamp :=
                          {| wall := 1700000000250000; tz := None |} |} |},
     {| clock := 1700000000250000; sent := [weather_query] |}).
Proof.
  refine (proj2 (missing_current_weather_is_absent
           (Sample.weather_world (PyDict Sample.empty_body)) Sample.noon 250000
           (Sample.ok_response (PyDict Sample.empty_body)) Sample.empty_body
           PyNone None _ _ _ _)).
  - split; [reflexivity | split; [simpl; lia | reflexivity]].
  - reflexivity.
  - apply humidity_no_block. reflexivity.
  - constructor.
Defined.

(** C2, as stated, fails: a body without [current_weather] whose humidity
    series is empty is answered with status 500. *)
Lemma missing_current_weather_may_fail :
  weather_answer (Sample.weather_world (PyDict Sample.no_current_empty_series))
    250000 (Sample.ok_response (PyDict Sample.no_current_empty_series))
    Sample.no_current_empty_series
  /\ Sample.no_current_empty_series !! "current_weather" = None
  /\ main.GET_weather_cuneo
       (Sample.weather_world (PyDict Sample.no_current_empty_series)) Sample.noon =
     ({| status := 500;
         body := ErrorDetail
           "Errore nel processamento dei dati meteo: list index out of range" |},
      {| clock := 1700000000250000; sent := [weather_query] |}).
Proof.
  split; [|split].
  - split; [reflexivity | split; [simpl; lia | reflexivity]].
  - reflexivity.
  - vm_compute. reflexivity.
Qed.

(** C3.  For a body whose [current_weather] entry is missing or an
    object: when the temperature can be read (it is missing, [None], or a
    value that [float] converts) and the humidity is missing (no hourly
    block, no relative-humidity series in it, or a series whose first
    entry is [None]), the request succeeds with status 200 and the
    humidity is [None]; when the series is present in the hourly object
    and empty, the request is answered with status 500 and the text of
    the [IndexError]. *)
Theorem missing_humidity_is_absent (env : Env) (st : State) (took : Z)
    (r : Response) (d : gmap string pyval) (t : pyval) :
  weather_answer env took r d ->
  temperature_source d t ->
  (forall T : option float64,
     field_of env t T ->
     humidity_source d PyNone ->
     main.get_cuneo_weather env st =
       (Returned {| weather_service.city := "Cuneo";
                    weather_service.temperature := T;
                    weather_service.humidity := None;
                    weather_service.timestamp := local_time env (clock st + took) |},
        after_call st took weather_query)
     /\ main.GET_weather_cuneo env st =
          ({| status := 200;
              body := Json {| schemas.city := "Cuneo";
                              schemas.temperature := json_float T;
                              schemas.humidity := None;
                              schemas.timestamp :=
                                local_time env (clock st + took) |} |},
           after_call st took weather_query))
  /\
  (forall h : gmap string pyval,
     d !! "hourly" = Some (PyDict h) ->
     h !! "relative_humidity_2m" = Some (PyList []) ->
     main.GET_weather_cuneo env st =
       ({| status := 500;
           body := ErrorDetail
             "Errore nel processamento dei dati meteo: list index out of range" |},
        after_call st took weather_query)).
Proof.
  intros Hans Ht. split.
  - intros T HT Hx.
    assert (Hrun : main.get_cuneo_weather env st =
      (Returned {| weather_service.city := "Cuneo";
                   weather_service.temperature := T;
                   weather_service.humidity := None;
                   weather_service.timestamp := local_time env (clock st + took) |},
       after_call st took weather_query)).
    { apply (get_cuneo_weather_returns env st took r d t PyNone T None); auto.
      constructor. }
    split; [exact Hrun|].
    unfold main.GET_weather_cuneo, route. rewrite Hrun. reflexivity.
  - intros h Hh Hs.
    apply route_HTTPException.
    rewrite (get_cuneo_weather_raised env st (after_call st took weather_query)
               (Exc IndexError "list index out of range")).
    + reflexivity.
    + apply (raised_in_extract env st took r (PyDict d)); [exact Hans|].
      apply (extract_empty_series env _ d t h); assumption.
Qed.

Lemma missing_humidity_is_absent_witness :
  main.GET_weather_cuneo (Sample.weather_world (PyDict Sample.no_hourly))
    Sample.noon =
    ({| status := 200;
        body := Json {| schemas.city := "Cuneo";
                        schemas.temperature := json_float (Some (float_lit 125 1));
                        schemas.humidity := None;
                        schemas.timestamp :=
                          {| wall := 1700000000250000; tz := None |} |} |},
     {| clock := 1700000000250000; sent := [weather_query] |}).
Proof.
  refine (proj2 (proj1 (missing_humidity_is_absent
           (Sample.weather_world (PyDict Sample.no_hourly)) Sample.noon 250000
           (Sample.ok_response (PyDict Sample.no_hourly)) Sample.no_hourly
           (PyFloat (float_lit 125 1)) _ _) (Some (float_lit 125 1)) _ _)).
  - split; [reflexivity | split; [simpl; lia | reflexivity]].
  - exact (temperature_in_block Sample.no_hourly
             {[ "temperature" := PyFloat (float_lit 125 1) ]} eq_refl).
  - constructor; [discriminate | reflexivity].
  - apply humidity_no_block. reflexivity.
Defined.

(** C3, as stated, fails: a body whose humidity series is empty is answered
    with status 500, not with an absent humidity. *)
Lemma empty_series_fails_the_request :
  weather_answer (Sample.weather_world (PyDict Sample.empty_series))
    250000 (Sample.ok_response (PyDict Sample.empty_series)) Sample.empty_series
  /\ main.GET_weather_cuneo
       (Sample.weather_world (PyDict Sample.empty_series)) Sample.noon =
     ({| status := 500;
         body := ErrorDetail
           "Errore nel processamento dei dati meteo: list index out of range" |},
      {| clock := 1700000000250000; sent := [weather_query] |}).
Proof.
  split.
  - split; [reflexivity | split; [simpl; lia | reflexivity]].
  - vm_compute. reflexivity.
Qed.

Lemma subscript_error_raised (v : pyval) :
  indexable v = false -> py_getitem0 v = Raised (subscript_error v).
Proof.
  destruct v as [| | | |s|l|]; try reflexivity.
  - destruct s; [reflexivity | discriminate].
  - destruct l; [reflexivity | discriminate].
Qed.

(** Each failure is raised inside the [try] block and is answered by the
    clause its prefix belongs to. *)
Lemma weather_failure_handled (env : Env) (st : State) (took : Z) (e : exception)
    (prefix : string) :
  weather_failure env took e prefix ->
  main.get_cuneo_weather env st =
    (Raised (HTTPException 500 (prefix +:+ str e)), after_call st took weather_query).
Proof.
  intros [e' Hapi He | r Hapi Hstatus | r e' Hapi Hstatus Hjson He
         | r d h t series Hans Ht Hh Hs Hidx
         | r d t x Hans Ht Hx Hcont
         | r d t x T Hans Ht Hx HT Hcont].
  - rewrite (get_cuneo_weather_raised env st _ e' (raised_by_get env st took e' Hapi)).
    rewrite He. reflexivity.
  - rewrite (get_cuneo_weather_raised env st _ _
               (raised_by_status env st took r Hapi Hstatus)).
    reflexivity.
  - rewrite (get_cuneo_weather_raised env st _ e'
               (raised_by_json env st took r e' Hapi Hstatus Hjson)).
    rewrite He. reflexivity.
  - pose proof (subscript_error_raised series Hidx) as Hitem.
    destruct (py_getitem0_raises series _ Hitem) as [Hnot Hyes].
    rewrite (get_cuneo_weather_raised env st (after_call st took weather_query)
               (subscript_error series)).
    + rewrite Hnot, Hyes. reflexivity.
    + apply (raised_in_extract env st took r (PyDict d)); [exact Hans|].
      unfold weather_service.extract.
      rewrite (extract_temperature_step env _ d t) by exact Ht.
      unfold mbind, M_bind, lift. cbn -[py_getitem0]. rewrite Hh.
      cbn -[py_getitem0]. rewrite Hs. cbn -[py_getitem0]. rewrite Hitem.
      reflexivity.
  - rewrite (get_cuneo_weather_raised env st (after_call st took weather_query)
               (float_type_error t)).
    + reflexivity.
    + apply (raised_in_extract env st took r (PyDict d)); [exact Hans|].
      unfold weather_service.extract.
      rewrite (extract_temperature_step env _ d t) by exact Ht.
      rewrite (extract_humidity_step env _ d x) by exact Hx.
      destruct t; try discriminate Hcont; reflexivity.
  - rewrite (get_cuneo_weather_raised env st (after_call st took weather_query)
               (float_type_error x)).
    + reflexivity.
    + apply (raised_in_extract env st took r (PyDict d)); [exact Hans|].
      unfold weather_service.extract.
      rewrite (extract_temperature_step env _ d t) by exact Ht.
      rewrite (extract_humidity_step env _ d x) by exact Hx.
      rewrite (bind_Returned _ _ _ _ _ _ (float_unless_None_field env _ t T HT)).
      destruct x; try discriminate Hcont; reflexivity.
Qed.

(** C4.  When the weather call fails in transport (the call raises an
    exception of the [requests] family, the answer has a 4xx or 5xx
    status, or its body does not decode), or when the decoded object
    holds a value of the wrong type where a number or a series is read
    (a humidity series with no element [0], a temperature or a first
    humidity entry that is a list or an object), [get_cuneo_weather]
    raises an [HTTPException] with status 500, and the route answers 500
    with a detail that ends in the text of the original exception.  A
    body from which the temperature and the humidity are missing is no
    failure: it is answered 200 with both values absent. *)
Theorem weather_failures_become_500 (env : Env) (st : State) :
  (forall (took : Z) (e : exception) (prefix : string),
     weather_failure env took e prefix ->
     main.get_cuneo_weather env st =
       (Raised (HTTPException 500 (prefix +:+ str e)), after_call st took weather_query)
     /\ main.GET_weather_cuneo env st =
          ({| status := 500; body := ErrorDetail (prefix +:+ str e) |},
           after_call st took weather_query)
     /\ contains (str e) (prefix +:+ str e) = true)
  /\
  (forall (took : Z) (r : Response) (d : gmap string pyval),
     weather_answer env took r d ->
     temperature_source d PyNone -> humidity_source d PyNone ->
     main.GET_weather_cuneo env st =
       ({| status := 200;
           body := Json {| schemas.city := "Cuneo";
                           schemas.temperature := None;
                           schemas.humidity := None;
                           schemas.timestamp := local_time env (clock st + took) |} |},
        after_call st took weather_query)).
Proof.
  split.
  - intros took e prefix Hfail.
    pose proof (weather_failure_handled env st took e prefix Hfail) as Hraise.
    split; [exact Hraise | split].
    + apply route_HTTPException, Hraise.
    + apply contains_append.
  - intros took r d Hans Ht Hx.
    unfold main.GET_weather_cuneo, route.
    rewrite (get_cuneo_weather_returns env st took r d PyNone PyNone None None);
      auto; constructor.
Qed.

Lemma weather_failures_become_500_witness :
  main.GET_weather_cuneo (Sample.world (Raised Sample.refused) Sample.silent)
    Sample.noon =
    ({| status := 500;
        body := ErrorDetail
          ("Errore nel recupero dei dati meteo: " +:+ str Sample.refused) |},
     after_call Sample.noon 250000 weather_query).
Proof.
  refine (proj1 (proj2 (proj1 (weather_failures_become_500
           (Sample.world (Raised Sample.refused) Sample.silent) Sample.noon)
           250000 Sample.refused "Errore nel recupero dei dati meteo: " _))).
  apply transport_failure; reflexivity.
Defined.

(** C4, as stated, fails: a body from which every key is missing is not an
    error; it is answered with status 200 and two absent values. *)
Lemma missing_keys_are_not_an_error :
  weather_answer (Sample.weather_world (PyDict Sample.empty_body))
    250000 (Sample.ok_response (PyDict Sample.empty_body)) Sample.empty_body
  /\ main.get_cuneo_weather
       (Sample.weather_world (PyDict Sample.empty_body)) Sample.noon =
     (Returned {| weather_service.city := "Cuneo";
                  weather_service.temperature := None;
                  weather_service.humidity := None;
                  weather_service.timestamp :=
                    {| wall := 1700000000250000; tz := None |} |},
      {| clock := 1700000000250000; sent := [weather_query] |}).
Proof.
  split.
  - split; [reflexivity | split; [simpl; lia | reflexivity]].
  - vm_compute. reflexivity.
Qed.

(** The state after the weather handler, whatever the upstream did: the
    one query has been sent and the time of the call has passed. *)
Lemma get_cuneo_weather_state (env : Env) (st : State) :
  (main.get_cuneo_weather env st).2 =
    after_call st
      (weather_api env "https://api.open-meteo.com/v1/forecast" weather_service.params).1
      weather_query.
Proof.
  unfold main.get_cuneo_weather, weather_service.get_cuneo_weather.
  rewrite try_state.
  - rewrite bind_state.
    + unfold requests_get. simpl.
      destruct (weather_api env _ _) as [took answer]. reflexivity.
    + keeps.
  - intros e. cbn [dispatch].
    repeat (case_match; [apply keeps_state_raise|]). apply keeps_state_raise.
Qed.

(** A reading that the extraction returns has the fixed city and the
    local time of the clock as it stands. *)
Lemma extract_Returned (env : Env) (s s' : State) (data : pyval)
    (rd : weather_service.reading) :
  weather_service.extract data env s = (Returned rd, s') ->
  weather_service.city rd = "Cuneo" /\
  weather_service.timestamp rd = local_time env (clock s).
Proof.
  unfold weather_service.extract, mbind, M_bind, lift. intros Hrun.
  repeat match type of Hrun with
         | context [match ?o with _ => _ end] =>
             let E := fresh "E" in destruct o eqn:E; simplify_eq
         end.
  repeat match goal with
         | E : weather_service.float_unless_None ?v ?env ?s = (_, _) |- _ =>
             let K := fresh "K" in
             pose proof (keeps_state_float_unless_None v env s) as K;
             rewrite E in K; simpl in K; subst; clear E
         end.
  match goal with
  | E : datetime_now None _ _ = (_, _) |- _ => unfold datetime_now in E; simplify_eq
  end.
  unfold mret, M_ret in Hrun. simplify_eq. split; reflexivity.
Qed.

Lemma get_cuneo_weather_Returned (env : Env) (st st' : State)
    (rd : weather_service.reading) :
  main.get_cuneo_weather env st = (Returned rd, st') ->
  weather_service.city rd = "Cuneo" /\
  weather_service.timestamp rd = local_time env (clock st').
Proof.
  intros Hrun.
  pose proof (get_cuneo_weather_state env st) as Hst. rewrite Hrun in Hst.
  simpl in Hst. subst st'.
  revert Hrun.
  unfold main.get_cuneo_weather, weather_service.get_cuneo_weather, try_except.
  match goal with
  | |- context [match ?body env st with _ => _ end] => destruct (body env st) as [[rd' | e] s] eqn:Hbody
  end; [| cbn [dispatch]; repeat case_match; discriminate].
  intros [= -> ->].
  apply bind_Returned_inv in Hbody as (response & s1 & _ & Hbody).
  apply bind_Returned_inv in Hbody as ([] & s2 & Hstatus & Hbody).
  apply bind_Returned_inv in Hbody as (data & s3 & Hjson & Hbody).
  pose proof (keeps_state_raise_for_status response env s1) as K1.
  rewrite Hstatus in K1. simpl in K1. subst s2.
  unfold response_json, lift in Hjson. injection Hjson as _ <-.
  pose proof (keeps_state_extract data env s1) as K2.
  rewrite Hbody in K2. simpl in K2. subst s1.
  exact (extract_Returned env _ _ data rd Hbody).
Qed.

Lemma ignores_settings_bind {A B} (m : M A) (k : A -> M B) :
  ignores_settings m -> (forall a, ignores_settings (k a)) ->
  ignores_settings (m ≫= k).
Proof.
  intros Hm Hk env s st. unfold mbind, M_bind. rewrite Hm.
  destruct (m env st) as [[a|e] st']; [apply Hk | reflexivity].
Qed.

Lemma ignores_settings_try {A} (body : M A) clauses :
  ignores_settings body -> (forall e, ignores_settings (dispatch clauses e)) ->
  ignores_settings (try_except body clauses).
Proof.
  intros Hb Hc env s st. unfold try_except. rewrite Hb.
  destruct (body env st) as [[a|e] st']; [reflexivity | apply Hc].
Qed.

Lemma ignores_settings_float_unless_None (v : pyval) :
  ignores_settings (weather_service.float_unless_None v).
Proof. intros env s st. destruct v; reflexivity. Qed.

Lemma get_cuneo_weather_ignores_settings : ignores_settings main.get_cuneo_weather.
Proof.
  unfold main.get_cuneo_weather, weather_service.get_cuneo_weather.
  apply ignores_settings_try.
  - unfold weather_service.extract.
    repeat first
      [ match goal with |- forall _, _ => intro end
      | apply ignores_settings_float_unless_None
      | apply ignores_settings_bind
      | (intros env s st; reflexivity)
      | (unfold raise_for_status; case_bool_decide; intros env s st; reflexivity) ].
  - intros e. cbn [dispatch]. repeat case_match; intros env s st; reflexivity.
Qed.

(** C10.  Whatever the upstream answers and whatever the settings object
    holds, the weather handler sends the one query that carries the
    coordinates written in the handler, latitude 44.384 and longitude
    7.543; and every reading it returns names the city "Cuneo" and is
    stamped with the host's local time at the moment the reading is built,
    after the upstream call. *)
Theorem weather_constants (env : Env) (st : State) :
  sent (main.get_cuneo_weather env st).2 = sent st ++
    [HttpGet "https://api.open-meteo.com/v1/forecast" weather_service.params]
  /\ weather_service.params !! 0%nat = Some ("latitude", PyFloat (float_lit 44384 3))
  /\ weather_service.params !! 1%nat = Some ("longitude", PyFloat (float_lit 7543 3))
  /\ (forall s : config.Settings,
        main.get_cuneo_weather (with_settings env s) st = main.get_cuneo_weather env st)
  /\ (forall (rd : weather_service.reading) (st' : State),
        main.get_cuneo_weather env st = (Returned rd, st') ->
        weather_service.city rd = "Cuneo" /\
        weather_service.timestamp rd = local_time env (clock st')).
Proof.
  split; [|split; [|split; [|split]]]; try reflexivity.
  - rewrite get_cuneo_weather_state. reflexivity.
  - intros s. apply get_cuneo_weather_ignores_settings.
  - intros rd st' Hrun. exact (get_cuneo_weather_Returned env st st' rd Hrun).
Qed.

Lemma weather_constants_witness :
  "Cuneo" = "Cuneo" /\
  {| wall := 1700000000250000; tz := None |} =
    local_time (Sample.weather_world (PyDict Sample.empty_body)) 1700000000250000.
Proof.
  refine (proj2 (proj2 (proj2 (proj2 (weather_constants
            (Sample.weather_world (PyDict Sample.empty_body)) Sample.noon))))
          {| weather_service.city := "Cuneo";
             weather_service.temperature := None;
             weather_service.humidity := None;
             weather_service.timestamp :=
               {| wall := 1700000000250000; tz := None |} |}
          {| clock := 1700000000250000; sent := [weather_query] |} _).
  vm_compute. reflexivity.
Defined.

(** * The claims about the chat handler *)

Section Chat.
Variables (env : Env) (st : State) (message : string).

Let key : string := config.OPENAI_API_KEY (settings env).
Let call : outbound := ChatCreate key (chat_payload message).

Lemma chat_with_ai_returns took (completion : ChatCompletion) (c : Choice) cs :
  chat_api env key (chat_payload message) = (took, Returned completion) ->
  choices completion = c :: cs ->
  main.chat_with_ai {| schemas.message := message |} env st =
    (Returned {| openai_service.response := message_content c;
                 openai_service.timestamp := local_time env (clock st + took) |},
     after_call st took call).
Proof.
  intros Hapi Hchoices.
  unfold main.chat_with_ai, openai_service.get_chat_response.
  erewrite bind_Returned by reflexivity.
  apply try_Returned.
  erewrite bind_Returned; cycle 1.
  { unfold chat_completions_create. simpl. fold key.
    change {| model := "gpt-3.5-turbo";
              messages := [ {| role := "user"; content := message |} ];
              max_tokens := 150 |} with (chat_payload message).
    rewrite Hapi. reflexivity. }
  erewrite bind_Returned; cycle 1.
  { unfold lift, openai_service.first_choice. rewrite Hchoices. reflexivity. }
  reflexivity.
Qed.

Lemma chat_with_ai_raises took (e : exception) :
  chat_api env key (chat_payload message) = (took, Raised e) ->
  isinstance e [Exception] = true ->
  main.chat_with_ai {| schemas.message := message |} env st =
    (Raised (HTTPException 500 ("Errore nella comunicazione con OpenAI: " +:+ str e)),
     after_call st took call).
Proof.
  intros Hapi He.
  unfold main.chat_with_ai, openai_service.get_chat_response.
  erewrite bind_Returned by reflexivity.
  erewrite try_Raised; cycle 1.
  { apply bind_Raised. unfold chat_completions_create. simpl. fold key.
    change {| model := "gpt-3.5-turbo";
              messages := [ {| role := "user"; content := message |} ];
              max_tokens := 150 |} with (chat_payload message).
    rewrite Hapi. reflexivity. }
  cbn [dispatch]. rewrite He. reflexivity.
Qed.

Lemma chat_with_ai_state :
  (main.chat_with_ai {| schemas.message := message |} env st).2 =
    after_call st (chat_api env key (chat_payload message)).1 call.
Proof.
  unfold main.chat_with_ai, openai_service.get_chat_response.
  erewrite bind_Returned by reflexivity.
  rewrite try_state.
  - rewrite bind_state by keeps.
    unfold chat_completions_create. simpl. fold key.
    change {| model := "gpt-3.5-turbo";
              messages := [ {| role := "user"; content := message |} ];
              max_tokens := 150 |} with (chat_payload message).
    destruct (chat_api env key (chat_payload message)) as [took answer]. reflexivity.
  - intros e. cbn [dispatch]. case_match; apply keeps_state_raise.
Qed.
End Chat.

(** C5.  For every message, the chat handler sends the upstream one call,
    with the model "gpt-3.5-turbo", the token cap 150 and a message list
    that holds the single message of role "user" whose content is the
    input; and when the upstream returns a completion, the response field
    of the result is the content of its first choice, unchanged. *)
Theorem chat_single_turn (env : Env) (st : State) (message : string) :
  sent (main.chat_with_ai {| schemas.message := message |} env st).2 =
    sent st ++
      [ChatCreate (config.OPENAI_API_KEY (settings env))
         {| model := "gpt-3.5-turbo";
            messages := [ {| role := "user"; content := message |} ];
            max_tokens := 150 |}]
  /\ forall (took : Z) (completion : ChatCompletion) (c : Choice) (cs : list Choice),
       chat_api env (config.OPENAI_API_KEY (settings env)) (chat_payload message)
         = (took, Returned completion) ->
       choices completion = c :: cs ->
       (main.chat_with_ai {| schemas.message := message |} env st).1 =
         Returned {| openai_service.response := message_content c;
                     openai_service.timestamp := local_time env (clock st + took) |}.
Proof.
  split.
  - rewrite chat_with_ai_state. reflexivity.
  - intros took completion c cs Hapi Hchoices.
    rewrite (chat_with_ai_returns env st message took completion c cs Hapi Hchoices).
    reflexivity.
Qed.

Lemma chat_single_turn_witness :
  (main.chat_with_ai {| schemas.message := "Buongiorno" |}
     (Sample.world (Raised Sample.refused) (Returned Sample.greeting))
     Sample.noon).1 =
    Returned {| openai_service.response := Some "Ciao!";
                openai_service.timestamp := {| wall := 1700000002000000; tz := None |} |}.
Proof.
  refine (proj2 (chat_single_turn
            (Sample.world (Raised Sample.refused) (Returned Sample.greeting))
            Sample.noon "Buongiorno")
          2000000 Sample.greeting {| message_content := Some "Ciao!" |} [] _ _);
    reflexivity.
Defined.

(** C6.  Every exception that the chat upstream call raises (a network
    failure, an error of the provider, a refused key, a rate limit: any
    instance of [Exception]) is turned into an [HTTPException] with status
    500, and the route answers 500 with a detail that ends in the text of
    the exception. *)
Theorem chat_errors_become_500 (env : Env) (st : State) (message : string)
    (took : Z) (e : exception) :
  chat_api env (config.OPENAI_API_KEY (settings env)) (chat_payload message)
    = (took, Raised e) ->
  isinstance e [Exception] = true ->
  let detail := "Errore nella comunicazione con OpenAI: " +:+ str e in
  let st' := after_call st took
               (ChatCreate (config.OPENAI_API_KEY (settings env)) (chat_payload message)) in
  main.chat_with_ai {| schemas.message := message |} env st =
    (Raised (HTTPException 500 detail), st')
  /\ main.POST_chat {| schemas.message := message |} env st =
       ({| status := 500; body := ErrorDetail detail |}, st')
  /\ contains (str e) detail = true.
Proof.
  intros Hapi He detail st'.
  pose proof (chat_with_ai_raises env st message took e Hapi He) as Hraise.
  split; [exact Hraise | split].
  - apply route_HTTPException, Hraise.
  - apply contains_append.
Qed.

Lemma chat_errors_become_500_witness :
  main.POST_chat {| schemas.message := "Buongiorno" |}
    (Sample.world (Raised Sample.refused) (Raised Sample.rate_limited))
    Sample.noon =
    ({| status := 500;
        body := ErrorDetail
          "Errore nella comunicazione con OpenAI: Error code: 429 - Rate limit reached" |},
     {| clock := 1700000002000000;
        sent := [ChatCreate "" (chat_payload "Buongiorno")] |}).
Proof.
  refine (proj1 (proj2 (chat_errors_become_500
            (Sample.world (Raised Sample.refused) (Raised Sample.rate_limited))
            Sample.noon "Buongiorno" 2000000 Sample.rate_limited _ _)));
    reflexivity.
Defined.

(** The errors the chat client raises are all instances of [Exception]. *)
Lemma openai_errors_are_exceptions (c : exc_class) :
  issubclass c OpenAIError = true -> issubclass c Exception = true.
Proof. destruct c; vm_compute; congruence. Qed.

(** * The claims about the time and health handlers *)

Lemma get_current_time_run (env : Env) (st : State) :
  main.get_current_time env st =
    (Returned
       {| time_service.current_time :=
            {| wall := clock st + tz_rules env "Europe/Rome" (clock st);
               tz := Some {| zone := "Europe/Rome";
                             utcoffset := tz_rules env "Europe/Rome" (clock st) |} |};
          time_service.timezone_str := "Europe/Rome" |},
     st).
Proof. reflexivity. Qed.

(** C7.  Every call of the time endpoint succeeds; the timezone field is
    the string "Europe/Rome" and the time returned is the instant of the
    system clock, expressed in that zone by the zone's own rules; the
    host's local zone plays no part. *)
Theorem time_in_rome (env : Env) (st : State) :
  exists now : datetime,
    main.GET_time env st =
      ({| status := 200;
          body := Json {| schemas.current_time := now;
                          schemas.timezone := "Europe/Rome" |} |}, st)
    /\ instant now = Some (clock st)
    /\ wall now = clock st + tz_rules env "Europe/Rome" (clock st)
    /\ zone <$> tz now = Some "Europe/Rome"
    /\ forall h : Z -> Z,
         main.GET_time (with_host_utcoffset env h) st = main.GET_time env st.
Proof.
  eexists. split; [reflexivity|].
  split; [|split; [|split]]; try reflexivity.
  unfold instant. simpl. f_equal. lia.
Qed.

(** C8.  Of two calls of the time endpoint, the second made when the
    system clock has not gone back, the second returns an instant that is
    not earlier than the instant the first returns. *)
Theorem time_is_monotone (env : Env) (st : State) (d : Z) :
  0 <= d ->
  exists (first second : time_service.reading) (st1 st2 : State) (i1 i2 : Z),
    main.get_current_time env st = (Returned first, st1)
    /\ main.get_current_time env (elapse d st1) = (Returned second, st2)
    /\ instant (time_service.current_time first) = Some i1
    /\ instant (time_service.current_time second) = Some i2
    /\ i1 <= i2.
Proof.
  intros Hd. do 2 eexists. exists st, (elapse d st), (clock st), (clock st + d).
  rewrite !get_current_time_run.
  split; [reflexivity|]. split; [reflexivity|].
  unfold instant. simpl.
  split; [f_equal; lia|]. split; [f_equal; lia | lia].
Qed.

Lemma time_is_monotone_witness :
  exists (first second : time_service.reading) (st1 st2 : State) (i1 i2 : Z),
    main.get_current_time (Sample.weather_world PyNone) Sample.noon
      = (Returned first, st1)
    /\ main.get_current_time (Sample.weather_world PyNone) (elapse 1000000 st1)
       = (Returned second, st2)
    /\ instant (time_service.current_time first) = Some i1
    /\ instant (time_service.current_time second) = Some i2
    /\ i1 <= i2.
Proof.
  apply (time_is_monotone (Sample.weather_world PyNone) Sample.noon 1000000). lia.
Defined.

(** C9.  The health endpoint answers every call with status 200 and the
    body [{"status": "healthy"}]; it makes no outbound call and reads
    nothing of the world, so any two runs give the same response. *)
Theorem health_is_constant (env env' : Env) (st st' : State) :
  main.GET_health env st =
    ({| status := 200; body := Json {[ "status" := "healthy" ]} |}, st)
  /\ sent (main.GET_health env st).2 = sent st
  /\ (main.GET_health env st).1 = (main.GET_health env' st').1.
Proof. repeat split. Qed.

(** * Worked runs *)

(** The coordinates of the query are the binary64 numbers nearest to
    44.384 and 7.543. *)
Example latitude_literal :
  float_lit 44384 3 = S754_finite false 6246492683162878 (-47).
Proof. vm_compute. reflexivity. Qed.

Example humidity_87 : float_of_Z 87 = S754_finite false 6122080743456768 (-46).
Proof. vm_compute. reflexivity. Qed.

Example large_integer_is_rounded : float_to_Z (float_of_Z (2 ^ 53 + 1)) = Some (2 ^ 53).
Proof. vm_compute. reflexivity. Qed.

Example huge_integer_overflows :
  py_float (fun _ => None) (fun s => s) (PyInt (2 ^ 1024)) =
    Raised (Exc OverflowError "int too large to convert to float").
Proof. vm_compute. reflexivity. Qed.

(** A 404 from the upstream. *)
Example not_found :
  (main.GET_weather_cuneo
     (Sample.world
        (Returned {| resp_status_code := 404; resp_reason := "Not Found";
                     resp_url := "https://api.open-meteo.com/v1/forecast";
                     resp_json := Returned PyNone |})
        Sample.silent)
     Sample.noon).1 =
    {| status := 500;
       body := ErrorDetail "Errore nel recupero dei dati meteo: 404 Client Error: Not Found for url: https://api.open-meteo.com/v1/forecast" |}.
Proof. vm_compute. reflexivity. Qed.

(** A humidity series that is [None]: line 35 raises [TypeError], which
    the second clause answers. *)
Example null_series :
  (main.GET_weather_cuneo
     (Sample.weather_world
        (PyDict {[ "hourly" := PyDict {[ "relative_humidity_2m" := PyNone ]} ]}))
     Sample.noon).1 =
    {| status := 500;
       body := ErrorDetail "Errore nel processamento dei dati meteo: 'NoneType' object is not subscriptable" |}.
Proof. vm_compute. reflexivity. Qed.

(** A body that is not an object: [data.get] raises [AttributeError],
    which neither clause names; it leaves the handler as it is and the
    server answers with its plain 500. *)
Example non_object_body :
  main.get_cuneo_weather (Sample.weather_world (PyList [])) Sample.noon =
    (Raised (Exc AttributeError "'list' object has no attribute 'get'"),
     {| clock := 1700000000250000; sent := [weather_query] |})
  /\ (main.GET_weather_cuneo (Sample.weather_world (PyList [])) Sample.noon).1 =
     {| status := 500; body := PlainText "Internal Server Error" |}.
Proof. split; vm_compute; reflexivity. Qed.

(** A temperature that is a string no float can be read from: [float]
    raises [ValueError], which neither clause names. *)
Example unreadable_temperature :
  (main.get_cuneo_weather
     (Sample.weather_world
        (PyDict {[ "current_weather" := PyDict {[ "temperature" := PyStr "n/a" ]} ]}))
     Sample.noon).1 =
    Raised (Exc ValueError "could not convert string to float: 'n/a'").
Proof. vm_compute. reflexivity. Qed.

(** A completion without choices: [choices[0]] raises [IndexError] inside
    the [try] block of the chat handler. *)
Example no_choices :
  (main.POST_chat {| schemas.message := "Buongiorno" |}
     (Sample.world (Raised Sample.refused) (Returned {| choices := [] |}))
     Sample.noon).1 =
    {| status := 500;
       body := ErrorDetail "Errore nella comunicazione con OpenAI: list index out of range" |}.
Proof. vm_compute. reflexivity. Qed.

(** An exception that is not an [Exception] passes through the chat
    handler. *)
Example cancellation_passes_through :
  (main.chat_with_ai {| schemas.message := "Buongiorno" |}
     (Sample.world (Raised Sample.refused) (Raised (Exc CancelledError "")))
     Sample.noon).1 = Raised (Exc CancelledError "").
Proof. vm_compute. reflexivity. Qed.

(** * Further properties of the weather handler *)

(** X1.  An exception raised inside the [try] block of the weather handler
    that is an instance of none of [RequestException], [KeyError],
    [IndexError], [TypeError] leaves the handler unchanged: it is not
    turned into an [HTTPException]. *)
Theorem weather_unnamed_exceptions_escape (env : Env) (st st' : State) (e : exception) :
  raised_in_try env st e st' ->
  isinstance e [RequestException; KeyError; IndexError; TypeError] = false ->
  main.get_cuneo_weather env st = (Raised e, st').
Proof.
  intros Hraised Hnone.
  rewrite (get_cuneo_weather_raised env st st' e Hraised).
  unfold isinstance in *. cbn [existsb] in *.
  apply orb_false_elim in Hnone as [H1 Hnone]. rewrite H1. cbn [orb].
  rewrite Hnone. reflexivity.
Qed.

Lemma weather_unnamed_exceptions_escape_witness :
  main.get_cuneo_weather
    (Sample.world
       (Returned {| resp_status_code := 200; resp_reason := "OK";
                    resp_url := "https://api.open-meteo.com/v1/forecast";
                    resp_json := Raised (Exc JSONDecodeError
                                           "Expecting value: line 1 column 1 (char 0)") |})
       Sample.silent)
    Sample.noon =
    (Raised (Exc JSONDecodeError "Expecting value: line 1 column 1 (char 0)"),
     after_call Sample.noon 250000 weather_query).
Proof.
  apply (weather_unnamed_exceptions_escape _ Sample.noon
           (after_call Sample.noon 250000 weather_query)
           (Exc JSONDecodeError "Expecting value: line 1 column 1 (char 0)")).
  - eapply (raised_by_json _ Sample.noon 250000);
      [reflexivity | simpl; lia | reflexivity].
  - reflexivity.
Defined.

(** X2.  When the body decodes to anything but an object (a list, a
    string, a number, [None]), [data.get] raises [AttributeError]; the
    handler does not convert it, and the route answers with the server's
    plain 500, without a detail. *)
Theorem weather_body_not_an_object (env : Env) (st : State) (took : Z)
    (r : Response) (data : pyval) :
  weather_body env took r data ->
  is_object data = false ->
  main.get_cuneo_weather env st =
    (Raised (Exc AttributeError
               ("'" +:+ type_name data +:+ "' object has no attribute 'get'")),
     after_call st took weather_query)
  /\ main.GET_weather_cuneo env st =
       ({| status := 500; body := PlainText "Internal Server Error" |},
        after_call st took weather_query).
Proof.
  intros Hbody Hobj.
  assert (Hrun : main.get_cuneo_weather env st =
    (Raised (Exc AttributeError
               ("'" +:+ type_name data +:+ "' object has no attribute 'get'")),
     after_call st took weather_query)).
  { rewrite (get_cuneo_weather_raised env st (after_call st took weather_query)
               (Exc AttributeError
                  ("'" +:+ type_name data +:+ "' object has no attribute 'get'"))).
    - reflexivity.
    - apply (raised_in_extract env st took r data); [exact Hbody|].
      destruct data; try discriminate; reflexivity. }
  split; [exact Hrun | exact (route_Exc _ _ _ _ _ _ _ Hrun)].
Qed.

Lemma weather_body_not_an_object_witness :
  main.GET_weather_cuneo (Sample.weather_world (PyStr "maintenance")) Sample.noon =
    ({| status := 500; body := PlainText "Internal Server Error" |},
     after_call Sample.noon 250000 weather_query).
Proof.
  refine (proj2 (weather_body_not_an_object
            (Sample.weather_world (PyStr "maintenance")) Sample.noon 250000
            (Sample.ok_response (PyStr "maintenance")) (PyStr "maintenance") _ _)).
  - split; [reflexivity | split; [simpl; lia | reflexivity]].
  - reflexivity.
Defined.

(** X3.  When the body has a [current_weather] entry that is not an object
    ([None] included: the default [{}] stands in for a missing key only),
    line 31 raises [AttributeError] whatever the rest of the body holds,
    and the handler does not convert it. *)
Theorem weather_block_not_an_object (env : Env) (st : State) (took : Z)
    (r : Response) (d : gmap string pyval) (v : pyval) :
  weather_answer env took r d ->
  d !! "current_weather" = Some v ->
  is_object v = false ->
  main.get_cuneo_weather env st =
    (Raised (Exc AttributeError
               ("'" +:+ type_name v +:+ "' object has no attribute 'get'")),
     after_call st took weather_query).
Proof.
  intros Hans Hcw Hobj.
  rewrite (get_cuneo_weather_raised env st (after_call st took weather_query)
             (Exc AttributeError
                ("'" +:+ type_name v +:+ "' object has no attribute 'get'"))).
  - reflexivity.
  - apply (raised_in_extract env st took r (PyDict d)); [exact Hans|].
    unfold weather_service.extract, mbind, M_bind, lift. simpl. rewrite Hcw. simpl.
    destruct v; try discriminate; reflexivity.
Qed.

Lemma weather_block_not_an_object_witness :
  main.get_cuneo_weather (Sample.weather_world (PyDict Cases.null_block)) Sample.noon =
    (Raised (Exc AttributeError "'NoneType' object has no attribute 'get'"),
     after_call Sample.noon 250000 weather_query).
Proof.
  apply (weather_block_not_an_object
           (Sample.weather_world (PyDict Cases.null_block)) Sample.noon 250000
           (Sample.ok_response (PyDict Cases.null_block)) Cases.null_block PyNone).
  - split; [reflexivity | split; [simpl; lia | reflexivity]].
  - reflexivity.
  - reflexivity.
Defined.

(** X4.  Whatever the relative-humidity entry of the hourly block holds,
    a failure to take its first element (an empty list, [None], a number,
    an object) is answered with status 500 and the text of the exception
    after "Errore nel processamento dei dati meteo: "; it never leaves the
    handler unconverted. *)
Theorem weather_series_failures_are_reported (env : Env) (st : State) (took : Z)
    (r : Response) (d h : gmap string pyval) (t series : pyval) (e : exception) :
  weather_answer env took r d ->
  temperature_source d t ->
  d !! "hourly" = Some (PyDict h) ->
  h !! "relative_humidity_2m" = Some series ->
  py_getitem0 series = Raised e ->
  main.GET_weather_cuneo env st =
    ({| status := 500;
        body := ErrorDetail ("Errore nel processamento dei dati meteo: " +:+ str e) |},
     after_call st took weather_query).
Proof.
  intros Hans Ht Hh Hs Hitem.
  destruct (py_getitem0_raises series e Hitem) as [Hnot Hyes].
  apply route_HTTPException.
  rewrite (get_cuneo_weather_raised env st (after_call st took weather_query) e).
  - rewrite Hnot, Hyes. reflexivity.
  - apply (raised_in_extract env st took r (PyDict d)); [exact Hans|].
    unfold weather_service.extract.
    rewrite (extract_temperature_step env _ d t) by exact Ht.
    unfold mbind, M_bind, lift. cbn -[py_getitem0]. rewrite Hh.
    cbn -[py_getitem0]. rewrite Hs. cbn -[py_getitem0]. rewrite Hitem.
    reflexivity.
Qed.

Lemma weather_series_failures_are_reported_witness :
  main.GET_weather_cuneo (Sample.weather_world (PyDict Cases.null_series)) Sample.noon =
    ({| status := 500;
        body := ErrorDetail
          ("Errore nel processamento dei dati meteo: " +:+
           "'NoneType' object is not subscriptable") |},
     after_call Sample.noon 250000 weather_query).
Proof.
  apply (weather_series_failures_are_reported
           (Sample.weather_world (PyDict Cases.null_series)) Sample.noon 250000
           (Sample.ok_response (PyDict Cases.null_series)) Cases.null_series
           {[ "relative_humidity_2m" := PyNone ]} PyNone PyNone
           (Exc TypeError "'NoneType' object is not subscriptable")).
  - split; [reflexivity | split; [simpl; lia | reflexivity]].
  - apply temperature_no_block. reflexivity.
  - reflexivity.
  - reflexivity.
  - reflexivity.
Defined.

(** X5.  When the first humidity entry can be taken and the temperature
    entry is a list or an object, [float] raises [TypeError], and the
    request is answered with status 500 and the processing prefix; the
    humidity is not reported on its own. *)
Theorem weather_temperature_of_wrong_type (env : Env) (st : State) (took : Z)
    (r : Response) (d : gmap string pyval) (t x : pyval) :
  weather_answer env took r d ->
  temperature_source d t -> humidity_source d x ->
  type_name t = "list" \/ type_name t = "dict" ->
  main.GET_weather_cuneo env st =
    ({| status := 500;
        body := ErrorDetail
          ("Errore nel processamento dei dati meteo: " +:+
           "float() argument must be a string or a real number, not '" +:+
           type_name t +:+ "'") |},
     after_call st took weather_query).
Proof.
  intros Hans Ht Hx Htype.
  apply route_HTTPException.
  rewrite (get_cuneo_weather_raised env st (after_call st took weather_query)
             (Exc TypeError
                ("float() argument must be a string or a real number, not '"
                 +:+ type_name t +:+ "'"))).
  - reflexivity.
  - apply (raised_in_extract env st took r (PyDict d)); [exact Hans|].
    unfold weather_service.extract.
    rewrite (extract_temperature_step env _ d t) by exact Ht.
    rewrite (extract_humidity_step env _ d x) by exact Hx.
    destruct t; destruct Htype as [Hty | Hty]; try discriminate Hty; reflexivity.
Qed.

Lemma weather_temperature_of_wrong_type_witness :
  main.GET_weather_cuneo (Sample.weather_world (PyDict Cases.list_temperature))
    Sample.noon =
    ({| status := 500;
        body := ErrorDetail
          ("Errore nel processamento dei dati meteo: " +:+
           "float() argument must be a string or a real number, not '" +:+
           "list" +:+ "'") |},
     after_call Sample.noon 250000 weather_query).
Proof.
  apply (weather_temperature_of_wrong_type
           (Sample.weather_world (PyDict Cases.list_temperature)) Sample.noon 250000
           (Sample.ok_response (PyDict Cases.list_temperature)) Cases.list_temperature
           (PyList [PyInt 12]) PyNone).
  - split; [reflexivity | split; [simpl; lia | reflexivity]].
  - exact (temperature_in_block Cases.list_temperature
             {[ "temperature" := PyList [PyInt 12] ]} eq_refl).
  - apply humidity_no_block. reflexivity.
  - left. reflexivity.
Defined.

(** X6.  When the first humidity entry can be taken and the temperature
    entry is a string that does not read as a float, [float] raises
    [ValueError] with the [repr] of the string in its text; no clause
    names it, so it leaves the handler unconverted and the route answers
    with the server's plain 500. *)
Theorem weather_unreadable_string (env : Env) (st : State) (took : Z)
    (r : Response) (d : gmap string pyval) (s : string) (x : pyval) :
  weather_answer env took r d ->
  temperature_source d (PyStr s) -> humidity_source d x ->
  float_of_str env s = None ->
  main.get_cuneo_weather env st =
    (Raised (Exc ValueError ("could not convert string to float: " +:+ repr_str env s)),
     after_call st took weather_query)
  /\ main.GET_weather_cuneo env st =
       ({| status := 500; body := PlainText "Internal Server Error" |},
        after_call st took weather_query).
Proof.
  intros Hans Ht Hx Hparse.
  assert (Hrun : main.get_cuneo_weather env st =
    (Raised (Exc ValueError ("could not convert string to float: " +:+ repr_str env s)),
     after_call st took weather_query)).
  { rewrite (get_cuneo_weather_raised env st (after_call st took weather_query)
               (Exc ValueError
                  ("could not convert string to float: " +:+ repr_str env s))).
    - reflexivity.
    - apply (raised_in_extract env st took r (PyDict d)); [exact Hans|].
      unfold weather_service.extract.
      rewrite (extract_temperature_step env _ d (PyStr s)) by exact Ht.
      rewrite (extract_humidity_step env _ d x) by exact Hx.
      unfold weather_service.float_unless_None, mbind, M_bind, ask, lift. simpl.
      rewrite Hparse. reflexivity. }
  split; [exact Hrun | exact (route_Exc _ _ _ _ _ _ _ Hrun)].
Qed.

Lemma weather_unreadable_string_witness :
  main.GET_weather_cuneo (Sample.weather_world (PyDict Cases.text_temperature))
    Sample.noon =
    ({| status := 500; body := PlainText "Internal Server Error" |},
     after_call Sample.noon 250000 weather_query).
Proof.
  refine (proj2 (weather_unreadable_string
            (Sample.weather_world (PyDict Cases.text_temperature)) Sample.noon 250000
            (Sample.ok_response (PyDict Cases.text_temperature))
            Cases.text_temperature "n/a" PyNone _ _ _ _)).
  - split; [reflexivity | split; [simpl; lia | reflexivity]].
  - exact (temperature_in_block Cases.text_temperature
             {[ "temperature" := PyStr "n/a" ]} eq_refl).
  - apply humidity_no_block. reflexivity.
  - reflexivity.
Defined.

(** * Further properties of the chat handler *)

Section ChatMore.
Variables (env : Env) (st : State) (message : string).

Let key : string := config.OPENAI_API_KEY (settings env).

(** The chat handler on an upstream that returns a completion: what is
    left is the reading of the first choice. *)
Lemma chat_with_ai_completion took (completion : ChatCompletion) :
  chat_api env key (chat_payload message) = (took, Returned completion) ->
  main.chat_with_ai {| schemas.message := message |} env st =
    match choices completion with
    | [] =>
        (Raised (HTTPException 500
                   ("Errore nella comunicazione con OpenAI: " +:+
                    "list index out of range")),
         after_call st took (ChatCreate key (chat_payload message)))
    | c :: _ =>
        (Returned {| openai_service.response := message_content c;
                     openai_service.timestamp := local_time env (clock st + took) |},
         after_call st took (ChatCreate key (chat_payload message)))
    end.
Proof.
  intros Hapi.
  destruct (choices completion) as [|c cs] eqn:Hchoices.
  - unfold main.chat_with_ai, openai_service.get_chat_response.
    erewrite bind_Returned by reflexivity.
    erewrite try_Raised; cycle 1.
    { erewrite bind_Returned; cycle 1.
      { unfold chat_completions_create. simpl. fold key.
        change {| model := "gpt-3.5-turbo";
                  messages := [ {| role := "user"; content := message |} ];
                  max_tokens := 150 |} with (chat_payload message).
        rewrite Hapi. reflexivity. }
      apply bind_Raised. unfold lift, openai_service.first_choice.
      rewrite Hchoices. reflexivity. }
    reflexivity.
  - exact (chat_with_ai_returns env st message took completion c cs Hapi Hchoices).
Qed.

(** The chat handler on an upstream that raises. *)
Lemma chat_with_ai_exception took (e : exception) :
  chat_api env key (chat_payload message) = (took, Raised e) ->
  main.chat_with_ai {| schemas.message := message |} env st =
    (Raised (if isinstance e [Exception]
             then HTTPException 500 ("Errore nella comunicazione con OpenAI: " +:+ str e)
             else e),
     after_call st took (ChatCreate key (chat_payload message))).
Proof.
  intros Hapi.
  unfold main.chat_with_ai, openai_service.get_chat_response.
  erewrite bind_Returned by reflexivity.
  erewrite try_Raised; cycle 1.
  { apply bind_Raised. unfold chat_completions_create. simpl. fold key.
    change {| model := "gpt-3.5-turbo";
              messages := [ {| role := "user"; content := message |} ];
              max_tokens := 150 |} with (chat_payload message).
    rewrite Hapi. reflexivity. }
  cbn [dispatch]. case_match; reflexivity.
Qed.
End ChatMore.

(** X7.  When the chat upstream returns a completion without choices,
    [choices[0]] raises [IndexError] inside the [try] block, and the
    request is answered with status 500 and the detail
    "Errore nella comunicazione con OpenAI: list index out of range". *)
Theorem chat_without_choices (env : Env) (st : State) (message : string)
    (took : Z) (completion : ChatCompletion) :
  chat_api env (config.OPENAI_API_KEY (settings env)) (chat_payload message)
    = (took, Returned completion) ->
  choices completion = [] ->
  main.POST_chat {| schemas.message := message |} env st =
    ({| status := 500;
        body := ErrorDetail
          "Errore nella comunicazione con OpenAI: list index out of range" |},
     after_call st took
       (ChatCreate (config.OPENAI_API_KEY (settings env)) (chat_payload message))).
Proof.
  intros Hapi Hnone.
  apply route_HTTPException.
  rewrite (chat_with_ai_completion env st message took completion Hapi), Hnone.
  reflexivity.
Qed.

Lemma chat_without_choices_witness :
  main.POST_chat {| schemas.message := "Buongiorno" |}
    (Sample.world (Raised Sample.refused) (Returned Cases.no_choice)) Sample.noon =
    ({| status := 500;
        body := ErrorDetail
          "Errore nella comunicazione con OpenAI: list index out of range" |},
     after_call Sample.noon 2000000 (ChatCreate "" (chat_payload "Buongiorno"))).
Proof.
  apply (chat_without_choices
           (Sample.world (Raised Sample.refused) (Returned Cases.no_choice))
           Sample.noon "Buongiorno" 2000000 Cases.no_choice); reflexivity.
Defined.

(** X8.  An exception of the chat upstream call that is not an instance of
    [Exception] (a cancellation, a keyboard interrupt) is not caught: it
    leaves [get_chat_response] as it was raised. *)
Theorem chat_non_exceptions_pass (env : Env) (st : State) (message : string)
    (took : Z) (e : exception) :
  chat_api env (config.OPENAI_API_KEY (settings env)) (chat_payload message)
    = (took, Raised e) ->
  isinstance e [Exception] = false ->
  main.chat_with_ai {| schemas.message := message |} env st =
    (Raised e,
     after_call st took
       (ChatCreate (config.OPENAI_API_KEY (settings env)) (chat_payload message))).
Proof.
  intros Hapi Hnot.
  rewrite (chat_with_ai_exception env st message took e Hapi), Hnot. reflexivity.
Qed.

Lemma chat_non_exceptions_pass_witness :
  main.chat_with_ai {| schemas.message := "Buongiorno" |}
    (Sample.world (Raised Sample.refused) (Raised (Exc CancelledError "")))
    Sample.noon =
    (Raised (Exc CancelledError ""),
     after_call Sample.noon 2000000 (ChatCreate "" (chat_payload "Buongiorno"))).
Proof.
  apply (chat_non_exceptions_pass
           (Sample.world (Raised Sample.refused) (Raised (Exc CancelledError "")))
           Sample.noon "Buongiorno" 2000000 (Exc CancelledError "")); reflexivity.
Defined.

(** X9.  The answer of the chat route to a completion with a first choice:
    status 200 with the content as the response when the choice has a
    content; when it has none, [get_chat_response] still returns, with
    [None] as the response, the response model [ChatResponse] does not
    accept it, and the route answers with the server's plain 500. *)
Theorem chat_route_on_completion (env : Env) (st : State) (message : string)
    (took : Z) (completion : ChatCompletion) (c : Choice) (cs : list Choice) :
  chat_api env (config.OPENAI_API_KEY (settings env)) (chat_payload message)
    = (took, Returned completion) ->
  choices completion = c :: cs ->
  main.POST_chat {| schemas.message := message |} env st =
    (match message_content c with
     | Some text =>
         {| status := 200;
            body := Json {| schemas.response := text;
                            schemas.chat_timestamp :=
                              local_time env (clock st + took) |} |}
     | None => {| status := 500; body := PlainText "Internal Server Error" |}
     end,
     after_call st took
       (ChatCreate (config.OPENAI_API_KEY (settings env)) (chat_payload message))).
Proof.
  intros Hapi Hchoices.
  unfold main.POST_chat, route.
  rewrite (chat_with_ai_completion env st message took completion Hapi), Hchoices.
  unfold respond, main.as_ChatResponse. simpl.
  destruct (message_content c); reflexivity.
Qed.

Lemma chat_route_on_completion_witness :
  main.POST_chat {| schemas.message := "Buongiorno" |}
    (Sample.world (Raised Sample.refused) (Returned Cases.no_content)) Sample.noon =
    ({| status := 500; body := PlainText "Internal Server Error" |},
     after_call Sample.noon 2000000 (ChatCreate "" (chat_payload "Buongiorno"))).
Proof.
  apply (chat_route_on_completion
           (Sample.world (Raised Sample.refused) (Returned Cases.no_content))
           Sample.noon "Buongiorno" 2000000 Cases.no_content
           {| message_content := None |} []); reflexivity.
Defined.

(** * Properties of the application as a whole *)

Lemma py_get_ordinary (v : pyval) (key : string) (dflt : pyval) (e : exception) :
  py_get v key dflt = Raised e -> ordinary_error e = true.
Proof. destruct v; simpl; intros [= <-]; reflexivity. Qed.

Lemma py_getitem0_ordinary (v : pyval) (e : exception) :
  py_getitem0 v = Raised e -> ordinary_error e = true.
Proof.
  destruct v as [| | | |s|l|]; simpl; try (intros [= <-]; reflexivity).
  - destruct s; intros [= <-]; reflexivity.
  - destruct l; intros [= <-]; reflexivity.
Qed.

Lemma py_float_ordinary parse repr (v : pyval) (e : exception) :
  py_float parse repr v = Raised e -> ordinary_error e = true.
Proof.
  destruct v as [| |z| |s| |]; simpl; try (intros [= <-]; reflexivity); try discriminate.
  - destruct (float_of_Z z); try discriminate. intros [= <-]. reflexivity.
  - destruct (parse s); try discriminate. intros [= <-]. reflexivity.
Qed.

Lemma float_unless_None_ordinary (env : Env) (s s' : State) (v : pyval) (e : exception) :
  weather_service.float_unless_None v env s = (Raised e, s') ->
  ordinary_error e = true.
Proof.
  destruct v; unfold weather_service.float_unless_None, mbind, M_bind, ask, lift;
    try discriminate;
    match goal with
    | |- context [py_float ?p ?q ?v] =>
        destruct (py_float p q v) as [f | e'] eqn:Hf; try discriminate;
        intros [= <- _]; exact (py_float_ordinary p q v e' Hf)
    end.
Qed.

(** The extraction raises ordinary errors only. *)
Lemma extract_raises_ordinary (env : Env) (s s' : State) (data : pyval) (e : exception) :
  weather_service.extract data env s = (Raised e, s') -> ordinary_error e = true.
Proof.
  unfold weather_service.extract, mbind, M_bind, lift. intros Hrun.
  repeat match type of Hrun with
         | context [match ?o with _ => _ end] =>
             let E := fresh "E" in destruct o eqn:E; simplify_eq
         end;
    eauto using py_get_ordinary, py_getitem0_ordinary, float_unless_None_ordinary.
  all: try (unfold datetime_now in *; simplify_eq).
Qed.

Lemma ordinary_error_plain (e : exception) :
  ordinary_error e = true -> exists cls msg, e = Exc cls msg.
Proof.
  destruct e as [cls msg | code detail]; [eauto|].
  unfold ordinary_error. rewrite andb_false_r. discriminate.
Qed.

(** The status of the weather route after an exception inside the [try]
    block. *)
Lemma weather_status_after_raise (env : Env) (st st' : State) (e : exception) :
  raised_in_try env st e st' -> ordinary_error e = true ->
  status (main.GET_weather_cuneo env st).1 = 500.
Proof.
  intros Hraised Hord.
  unfold main.GET_weather_cuneo, route.
  rewrite (get_cuneo_weather_raised env st st' e Hraised).
  destruct (ordinary_error_plain e Hord) as (cls & msg & ->).
  repeat case_match; simplify_eq; reflexivity.
Qed.

(** X11.  When the weather upstream raises ordinary errors only, the
    weather route answers every request with status 200 or with status
    500, and with no other. *)
Theorem weather_status_200_or_500 (env : Env) (st : State) :
  weather_errors_ordinary env ->
  status (main.GET_weather_cuneo env st).1 = 200 \/
  status (main.GET_weather_cuneo env st).1 = 500.
Proof.
  intros [Hget Hjson].
  destruct (weather_api env "https://api.open-meteo.com/v1/forecast"
              weather_service.params) as [took [r | e]] eqn:Hapi.
  - destruct (decide (400 <= resp_status_code r < 600)) as [Hbad | Hok].
    { right. eapply weather_status_after_raise;
        [exact (raised_by_status env st took r Hapi Hbad) | reflexivity]. }
    destruct (resp_json r) as [data | e] eqn:Hdata.
    + destruct (weather_service.extract data env (after_call st took weather_query))
        as [[rd | e] s] eqn:Hex.
      * left. unfold main.GET_weather_cuneo, route, main.get_cuneo_weather,
          weather_service.get_cuneo_weather.
        erewrite try_Returned; cycle 1.
        { simpl weather_service.base_url.
          rewrite (fetch_returns env st took r data) by assumption. exact Hex. }
        reflexivity.
      * right. eapply weather_status_after_raise;
          [exact (raised_by_extract env st took r data e s Hapi Hok Hdata Hex)
          | exact (extract_raises_ordinary env _ _ data e Hex)].
    + right. eapply weather_status_after_raise;
        [exact (raised_by_json env st took r e Hapi Hok Hdata)
        | exact (Hjson took r e eq_refl Hdata)].
  - right. eapply weather_status_after_raise;
      [exact (raised_by_get env st took e Hapi) | exact (Hget took e eq_refl)].
Qed.

Lemma weather_status_200_or_500_witness :
  status (main.GET_weather_cuneo (Sample.weather_world (PyList [])) Sample.noon).1 = 200 \/
  status (main.GET_weather_cuneo (Sample.weather_world (PyList [])) Sample.noon).1 = 500.
Proof.
  apply (weather_status_200_or_500 (Sample.weather_world (PyList [])) Sample.noon).
  split.
  - intros took e H. discriminate H.
  - intros took r e H1 H2. injection H1 as _ <-. discriminate H2.
Defined.

(** X12.  When the chat upstream raises instances of [Exception] only, the
    chat route answers every request whose body is a valid [ChatRequest]
    with status 200 or with status 500, and with no other.  (A body that
    is not a valid [ChatRequest] does not reach the handler.) *)
Theorem chat_status_200_or_500 (env : Env) (st : State) (message : string) :
  chat_errors_ordinary env message ->
  status (main.POST_chat {| schemas.message := message |} env st).1 = 200 \/
  status (main.POST_chat {| schemas.message := message |} env st).1 = 500.
Proof.
  intros Hord. unfold main.POST_chat, route.
  destruct (chat_api env (config.OPENAI_API_KEY (settings env)) (chat_payload message))
    as [took [completion | e]] eqn:Hapi.
  - rewrite (chat_with_ai_completion env st message took completion Hapi).
    destruct (choices completion) as [|c cs]; [right; reflexivity|].
    unfold respond, main.as_ChatResponse. simpl.
    destruct (message_content c); [left | right]; reflexivity.
  - rewrite (chat_with_ai_exception env st message took e Hapi), (Hord took e Hapi).
    right. reflexivity.
Qed.

Lemma chat_status_200_or_500_witness :
  status (main.POST_chat {| schemas.message := "Buongiorno" |}
            (Sample.world (Raised Sample.refused) (Raised Sample.rate_limited))
            Sample.noon).1 = 200 \/
  status (main.POST_chat {| schemas.message := "Buongiorno" |}
            (Sample.world (Raised Sample.refused) (Raised Sample.rate_limited))
            Sample.noon).1 = 500.
Proof.
  apply (chat_status_200_or_500
           (Sample.world (Raised Sample.refused) (Raised Sample.rate_limited))
           Sample.noon "Buongiorno").
  intros took e H. injection H as _ <-. reflexivity.
Defined.

Lemma route_state {A B} (model : A -> option B) (h : M A) env st :
  (route model h env st).2 = (h env st).2.
Proof. unfold route. destruct (h env st). reflexivity. Qed.

Lemma serve_sent (req : request) (env : Env) (st : State) :
  sent (serve req env st).2 = sent st ++ calls_of env req.
Proof.
  destruct req as [| | [message] |]; unfold serve.
  - pose proof (route_state main.as_WeatherResponse main.get_cuneo_weather env st) as H.
    fold main.GET_weather_cuneo in H.
    destruct (main.GET_weather_cuneo env st) as [r s]. simpl in *. subst s.
    rewrite get_cuneo_weather_state. reflexivity.
  - simpl. rewrite app_nil_r. reflexivity.
  - pose proof (route_state main.as_ChatResponse
                  (main.chat_with_ai {| schemas.message := message |}) env st) as H.
    fold (main.POST_chat {| schemas.message := message |}) in H.
    destruct (main.POST_chat {| schemas.message := message |} env st) as [r s].
    simpl in *. subst s. rewrite chat_with_ai_state. reflexivity.
  - simpl. rewrite app_nil_r. reflexivity.
Qed.

(** X13.  However many requests are served one after the other and
    whatever the upstreams answer, the handlers call [requests.get] once
    for each weather request and [chat.completions.create] once for each
    chat request, in the order of the requests, and the time and health
    routes call neither: no handler skips its call, repeats it or makes
    the other one. *)
Theorem one_call_per_request (reqs : list request) (env : Env) (st : State) :
  sent (serve_all reqs env st).2 = sent st ++ flat_map (calls_of env) reqs
  /\ length (serve_all reqs env st).1 = length reqs.
Proof.
  revert st. induction reqs as [|req rest IH]; intros st.
  - simpl. rewrite app_nil_r. split; reflexivity.
  - cbn [serve_all flat_map].
    pose proof (serve_sent req env st) as Hreq.
    destruct (serve req env st) as [code st'].
    destruct (IH st') as [IHsent IHlen].
    destruct (serve_all rest env st') as [codes st''].
    simpl in *. rewrite IHsent, Hreq, <- app_assoc. split; [reflexivity | congruence].
Qed.

(** X14.  The extraction reads two places of the body and no other: the
    [temperature] entry of [current_weather] and the first entry of the
    relative-humidity series.  Two bodies that agree there give the same
    outcome, whatever else they hold (other entries of the blocks, the
    rest of the series, the hourly temperatures the query asks for). *)
Theorem extract_reads_two_entries (env : Env) (s : State)
    (d d' : gmap string pyval) (t x : pyval) :
  temperature_source d t -> humidity_source d x ->
  temperature_source d' t -> humidity_source d' x ->
  weather_service.extract (PyDict d) env s = weather_service.extract (PyDict d') env s.
Proof.
  intros Ht Hx Ht' Hx'. unfold weather_service.extract.
  rewrite (extract_temperature_step env s d t) by exact Ht.
  rewrite (extract_temperature_step env s d' t) by exact Ht'.
  rewrite (extract_humidity_step env s d x) by exact Hx.
  rewrite (extract_humidity_step env s d' x) by exact Hx'.
  reflexivity.
Qed.

Lemma extract_reads_two_entries_witness :
  weather_service.extract (PyDict Sample.full_body)
    (Sample.weather_world PyNone) Sample.noon =
  weather_service.extract (PyDict Cases.busy_body)
    (Sample.weather_world PyNone) Sample.noon.
Proof.
  apply (extract_reads_two_entries (Sample.weather_world PyNone) Sample.noon
           Sample.full_body Cases.busy_body (PyFloat (float_lit 125 1)) (PyInt 87)).
  - exact (temperature_in_block Sample.full_body
             {[ "temperature" := PyFloat (float_lit 125 1) ]} eq_refl).
  - exact (humidity_first_entry Sample.full_body
             {[ "relative_humidity_2m" := PyList [PyInt 87; PyInt 85] ]}
             (PyInt 87) [PyInt 85] eq_refl eq_refl).
  - exact (temperature_in_block Cases.busy_body
             {[ "temperature" := PyFloat (float_lit 125 1);
                "windspeed" := PyFloat (float_lit 36 1) ]} eq_refl).
  - exact (humidity_first_entry Cases.busy_body
             {[ "relative_humidity_2m" := PyList [PyInt 87; PyNone; PyStr "?"];
                "temperature_2m" := PyList [PyFloat (float_lit 118 1)] ]}
             (PyInt 87) [PyNone; PyStr "?"] eq_refl eq_refl).
Defined.
